(** * Smile Dental Temps mobile client: screens as state transformers

    A shallow embedding of the logic of the React Native screens
    (AuthScreen, the root Index component, JobsScreen, JobPostingScreen):
    the pure list filter of the job directory, the form-to-request
    transforms, and the asynchronous handlers with their
    try / catch / finally structure, run against an explicit device
    (key-value storage), an explicit backend (an oracle answering each
    request) and a log of the observable interactions. *)

From Stdlib Require Import String Ascii List ZArith NArith Bool Lia.
From stdpp Require Import base option list gmap strings fin_maps.

#[local] Set Warnings "-register-all".
Local Open Scope string_scope.
Local Open Scope list_scope.

(** ** Host strings

    A JavaScript string is modelled by a [string] (a list of 8-bit code
    units). *)

Module JsString.

(** [s.includes(t)]: [t] occurs in [s] as a contiguous block. *)
Fixpoint includes (s t : string) : bool :=
  String.prefix t s ||
  match s with
  | EmptyString => false
  | String _ s' => includes s' t
  end.

(** Truthiness of a string: only the empty string is falsy. *)
Definition truthy (s : string) : bool :=
  match s with
  | EmptyString => false
  | String _ _ => true
  end.

(** Truthiness of a [string | null]. *)
Definition truthyOpt (o : option string) : bool :=
  match o with
  | Some s => truthy s
  | None => false
  end.

(** A [string | null] placed in a template literal. *)
Definition interpolate (o : option string) : string :=
  match o with
  | Some s => s
  | None => "null"
  end.

Definition lower_ascii (c : ascii) : ascii :=
  let n := nat_of_ascii c in
  if (65 <=? n)%nat && (n <=? 90)%nat then ascii_of_nat (n + 32) else c.

(** [toLowerCase] on the ASCII range (letters A-Z are folded, every
    other code unit is kept). The filter theorems below hold for an
    arbitrary lowering function; this instance is used to run the
    filter on concrete job lists. *)
Fixpoint toLowerCaseAscii (s : string) : string :=
  match s with
  | EmptyString => EmptyString
  | String c s' => String (lower_ascii c) (toLowerCaseAscii s')
  end.

(** [StrWhiteSpaceChar] on the ASCII range: space, tab, line feed,
    vertical tab, form feed, carriage return. *)
Definition isWhiteSpace (c : ascii) : bool :=
  let n := nat_of_ascii c in
  (n =? 32)%nat || ((9 <=? n)%nat && (n <=? 13)%nat).

Fixpoint trimStart (s : string) : string :=
  match s with
  | EmptyString => EmptyString
  | String c s' => if isWhiteSpace c then trimStart s' else s
  end.

Definition upper_ascii (c : ascii) : ascii :=
  let n := nat_of_ascii c in
  if (97 <=? n)%nat && (n <=? 122)%nat then ascii_of_nat (n - 32) else c.

(** The class [\w] of a regular expression without the unicode flag:
    ASCII letters, digits and the underscore. *)
Definition isWordChar (c : ascii) : bool :=
  let n := nat_of_ascii c in
  ((48 <=? n)%nat && (n <=? 57)%nat) ||
  ((65 <=? n)%nat && (n <=? 90)%nat) ||
  ((97 <=? n)%nat && (n <=? 122)%nat) ||
  (n =? 95)%nat.

(** [s.replace(/_/g, ' ')]: every underscore becomes a space. *)
Fixpoint replaceUnderscores (s : string) : string :=
  match s with
  | EmptyString => EmptyString
  | String c s' =>
      String (if Ascii.eqb c "_" then " "%char else c) (replaceUnderscores s')
  end.

(** [s.replace('_', ' ')]: a string pattern replaces the first
    occurrence only. *)
Fixpoint replaceFirstUnderscore (s : string) : string :=
  match s with
  | EmptyString => EmptyString
  | String c s' =>
      if Ascii.eqb c "_" then String " "%char s'
      else String c (replaceFirstUnderscore s')
  end.

(** [s.replace(/\b\w/g, l => l.toUpperCase())]: a word character that
    follows the start of the string or a non-word character is put in
    upper case; [afterWord] tells whether the previous code unit is a
    word character. *)
Fixpoint capitalizeWords (afterWord : bool) (s : string) : string :=
  match s with
  | EmptyString => EmptyString
  | String c s' =>
      String (if isWordChar c && negb afterWord then upper_ascii c else c)
        (capitalizeWords (isWordChar c) s')
  end.

(** The number of underscores of a string. *)
Fixpoint underscores (s : string) : nat :=
  match s with
  | EmptyString => O
  | String c s' => (if Ascii.eqb c "_" then 1 else 0) + underscores s'
  end.

End JsString.

(** ** Host numbers

    A finite number is kept as the decimal it was read from,
    [(-1)^negative * mantissa * 10^exponent]; the rounding to a double is
    not modelled, no claim depends on it. *)

Module JsNumber.

Inductive number :=
| NaN
| Infinity (negative : bool)
| Dec (negative : bool) (mantissa : N) (exponent : Z).

Definition zero : number := Dec false 0 0.

(** Truthiness: [NaN] and the zeros are falsy. *)
Definition truthy (n : number) : bool :=
  match n with
  | NaN => false
  | Infinity _ => true
  | Dec _ m _ => negb (N.eqb m 0)
  end.

(** [a || b] on numbers. *)
Definition orElse (a : option number) (b : number) : number :=
  match a with
  | Some n => if truthy n then n else b
  | None => b
  end.

Definition digitValue (radix : N) (c : ascii) : option N :=
  let n := N_of_ascii c in
  let v :=
    if (48 <=? n)%N && (n <=? 57)%N then Some (n - 48)%N
    else if (97 <=? n)%N && (n <=? 102)%N then Some (n - 87)%N
    else if (65 <=? n)%N && (n <=? 70)%N then Some (n - 55)%N
    else None in
  match v with
  | Some d => if (d <? radix)%N then Some d else None
  | None => None
  end.

(** The longest run of digits at the head of [s]: the accumulated
    value, the number of digits read, and the rest of the string. *)
Fixpoint digits (radix : N) (s : string) (acc : N) (count : nat)
  : N * nat * string :=
  match s with
  | EmptyString => (acc, count, s)
  | String c s' =>
      match digitValue radix c with
      | Some d => digits radix s' (acc * radix + d)%N (S count)
      | None => (acc, count, s)
      end
  end.

Definition sign (s : string) : bool * string :=
  match s with
  | String "-"%char r => (true, r)
  | String "+"%char r => (false, r)
  | _ => (false, s)
  end.

(** [ExponentPart] after a mantissa; an [e] that is not followed by
    digits is not part of the literal. *)
Definition exponentPart (s : string) : Z :=
  match s with
  | String c r =>
      if Ascii.eqb c "e" || Ascii.eqb c "E" then
        let '(neg, r') := sign r in
        let '(v, n, _) := digits 10 r' 0 0 in
        match n with
        | O => 0%Z
        | S _ => if neg then (- Z.of_N v)%Z else Z.of_N v
        end
      else 0%Z
  | EmptyString => 0%Z
  end.

(** [parseFloat]: leading white space is skipped, the longest prefix
    that is a [StrDecimalLiteral] is read, [NaN] when there is none. *)
Definition parseFloat (s : string) : number :=
  let '(neg, s1) := sign (JsString.trimStart s) in
  if String.prefix "Infinity" s1 then Infinity neg
  else
    let '(ip, n1, s2) := digits 10 s1 0 0 in
    let '(m, n2, s3) :=
      match s2 with
      | String "."%char r => digits 10 r ip 0
      | _ => (ip, O, s2)
      end in
    match (n1 + n2)%nat with
    | O => NaN
    | S _ => Dec neg m (exponentPart s3 - Z.of_nat n2)
    end.

(** [parseInt] without a radix argument: base 16 after [0x], base 10
    otherwise; [NaN] when no digit is read. *)
Definition parseInt (s : string) : number :=
  let '(neg, s1) := sign (JsString.trimStart s) in
  let '(radix, s2) :=
    match s1 with
    | String "0"%char (String x r) =>
        if Ascii.eqb x "x" || Ascii.eqb x "X" then (16%N, r) else (10%N, s1)
    | _ => (10%N, s1)
    end in
  let '(v, n, _) := digits radix s2 0 0 in
  match n with
  | O => NaN
  | S _ => Dec neg v 0
  end.

End JsNumber.

(** ** Host values: what request bodies, server payloads and alerts carry *)

Inductive value :=
| VUndefined
| VNull
| VBool (b : bool)
| VNum (n : JsNumber.number)
| VStr (s : string)
| VArr (l : list value)
| VObj (o : gmap string value).

Module JsValue.

Definition truthy (v : value) : bool :=
  match v with
  | VUndefined | VNull => false
  | VBool b => b
  | VNum n => JsNumber.truthy n
  | VStr s => JsString.truthy s
  | VArr _ | VObj _ => true
  end.

(** [a || b]. *)
Definition orElse (a b : value) : value := if truthy a then a else b.

(** [v?.k]: [undefined] on [undefined] and [null], the property of an
    object, [undefined] on the other values (no screen reads a
    property of a string, number or array through this path). *)
Definition optChain (v : value) (k : string) : value :=
  match v with
  | VObj o => default VUndefined (o !! k)
  | _ => VUndefined
  end.

(** A field of an all-strings form record read as a value:
    [undefined] when the field is not set. *)
Definition ofField (o : option string) : value :=
  match o with
  | Some s => VStr s
  | None => VUndefined
  end.

End JsValue.

(** ** Data exchanged with the backend *)

Module Api.

(** [interface Job] of JobsScreen. *)
Record Job := mkJob {
  id : string;
  title : string;
  job_type : string;
  description : option string;
  hourly_rate : JsNumber.number;
  location_address : string;
  location_city : string;
  location_state : string;
  location_zip : string;
  job_date : string;
  start_time : string;
  end_time : string;
  created_at : string;
  applications_count : Z
}.

(** What a rejected promise carries. An axios error has a [response]
    (here its [data]) when the server answered and none on a transport
    failure; any other exception has no [response] property. *)
Inductive Error :=
| AxiosError (response : option value)
| HostError (name : string).

(** [error.response?.data?.detail] *)
Definition detail (error : Error) : value :=
  match error with
  | AxiosError (Some data) => JsValue.optChain data "detail"
  | AxiosError None => VUndefined
  | HostError _ => VUndefined
  end.

(** The data of a 2xx answer of the two auth endpoints, as far as
    [onSubmit] reads it: [null] or [undefined], on which reading a
    property throws, or any other value with its [access_token], which
    is a string when it is there (the token is handed to
    [onLogin: (token: string, ...)]). *)
Inductive AuthData :=
| NoData
| Data (access_token : option string).

Inductive NetResult (A : Type) :=
| Fulfilled (data : A)
| Rejected (error : Error).
Arguments Fulfilled {A} data.
Arguments Rejected {A} error.

End Api.

(** ** Observable interactions, host and world *)

Inductive Event :=
| EGetItem (key : string)
| ESetItem (key value : string)
| ERemoveItem (key : string)
| EPost (url : string) (body : gmap string value) (headers : gmap string value)
| EGet (url : string) (headers : gmap string value)
| EAlert (title : string) (message : value)
| EConsoleError (label : string) (error : Api.Error)
| EFieldErrors (messages : list string)
| EFormReset.

Definition isRequest (e : Event) : bool :=
  match e with
  | EPost _ _ _ | EGet _ _ => true
  | _ => false
  end.

Inductive Portal := client | professional.

Definition portalName (p : Portal) : string :=
  match p with
  | client => "client"
  | professional => "professional"
  end.

(** Everything the screens call and do not define. The backend and the
    device are oracles over the history of interactions so far (the
    request being answered is its last event); a reply is typed by the
    shape its consumer reads: the [response.data] of the two auth
    endpoints with its [access_token], the profile for [/api/auth/me], the [Job[]]
    for [/api/jobs], nothing for the two POSTs whose response is
    dropped. *)
Record Host := mkHost {
  EXPO_PUBLIC_BACKEND_URL : string;
  JSON_parse : string -> option value;
  JSON_stringify : value -> string;
  (** [new Date(s).toISOString()], [None] for the RangeError of an
      invalid date. *)
  Date_toISOString : string -> option string;
  storageFault : list Event -> bool;
  authReply : list Event -> Api.NetResult Api.AuthData;
  meReply : list Event -> Api.NetResult value;
  jobsReply : list Event -> Api.NetResult (list Api.Job);
  writeReply : list Event -> Api.NetResult unit
}.

Record World := mkWorld {
  host : Host;
  (** AsyncStorage *)
  storage : gmap string string;
  log : list Event;
  (** Index: [isAuthenticated], [user], [loading] *)
  isAuthenticated : bool;
  user : option value;
  loading : bool;
  (** AuthScreen: [isLogin], [activePortal], [loading] *)
  isLogin : bool;
  activePortal : Portal;
  authLoading : bool;
  (** JobsScreen: [jobs], [loading] *)
  jobs : list Api.Job;
  jobsLoading : bool;
  (** JobPostingScreen: [loading] *)
  postingLoading : bool
}.

Definition withStorage (s : gmap string string) (w : World) : World :=
  mkWorld (host w) s (log w) (isAuthenticated w) (user w) (loading w)
    (isLogin w) (activePortal w) (authLoading w) (jobs w) (jobsLoading w)
    (postingLoading w).

Definition withLog (l : list Event) (w : World) : World :=
  mkWorld (host w) (storage w) l (isAuthenticated w) (user w) (loading w)
    (isLogin w) (activePortal w) (authLoading w) (jobs w) (jobsLoading w)
    (postingLoading w).

Definition withIsAuthenticated (b : bool) (w : World) : World :=
  mkWorld (host w) (storage w) (log w) b (user w) (loading w)
    (isLogin w) (activePortal w) (authLoading w) (jobs w) (jobsLoading w)
    (postingLoading w).

Definition withUser (u : option value) (w : World) : World :=
  mkWorld (host w) (storage w) (log w) (isAuthenticated w) u (loading w)
    (isLogin w) (activePortal w) (authLoading w) (jobs w) (jobsLoading w)
    (postingLoading w).

Definition withLoading (b : bool) (w : World) : World :=
  mkWorld (host w) (storage w) (log w) (isAuthenticated w) (user w) b
    (isLogin w) (activePortal w) (authLoading w) (jobs w) (jobsLoading w)
    (postingLoading w).

Definition withIsLogin (b : bool) (w : World) : World :=
  mkWorld (host w) (storage w) (log w) (isAuthenticated w) (user w) (loading w)
    b (activePortal w) (authLoading w) (jobs w) (jobsLoading w)
    (postingLoading w).

Definition withActivePortal (p : Portal) (w : World) : World :=
  mkWorld (host w) (storage w) (log w) (isAuthenticated w) (user w) (loading w)
    (isLogin w) p (authLoading w) (jobs w) (jobsLoading w)
    (postingLoading w).

Definition withAuthLoading (b : bool) (w : World) : World :=
  mkWorld (host w) (storage w) (log w) (isAuthenticated w) (user w) (loading w)
    (isLogin w) (activePortal w) b (jobs w) (jobsLoading w)
    (postingLoading w).

Definition withJobs (l : list Api.Job) (w : World) : World :=
  mkWorld (host w) (storage w) (log w) (isAuthenticated w) (user w) (loading w)
    (isLogin w) (activePortal w) (authLoading w) l (jobsLoading w)
    (postingLoading w).

Definition withJobsLoading (b : bool) (w : World) : World :=
  mkWorld (host w) (storage w) (log w) (isAuthenticated w) (user w) (loading w)
    (isLogin w) (activePortal w) (authLoading w) (jobs w) b
    (postingLoading w).

Definition withPostingLoading (b : bool) (w : World) : World :=
  mkWorld (host w) (storage w) (log w) (isAuthenticated w) (user w) (loading w)
    (isLogin w) (activePortal w) (authLoading w) (jobs w) (jobsLoading w)
    b.

(** ** Asynchronous handlers: state, exceptions, try / catch / finally *)

Inductive Outcome (A : Type) :=
| Ret (a : A)
| Throw (error : Api.Error).
Arguments Ret {A} a.
Arguments Throw {A} error.

Definition M (A : Type) : Type := World -> Outcome A * World.

Definition ret {A} (a : A) : M A := fun w => (Ret a, w).

Definition throw {A} (error : Api.Error) : M A := fun w => (Throw error, w).

Definition bind {A B} (m : M A) (k : A -> M B) : M B :=
  fun w =>
    match m w with
    | (Ret a, w') => k a w'
    | (Throw error, w') => (Throw error, w')
    end.

Declare Scope js_scope.
Delimit Scope js_scope with js.
Notation "x <- m ;; k" := (bind m (fun x => k))
  (at level 20, m at level 99, k at level 200, only parsing) : js_scope.
Notation "m ;; k" := (bind m (fun _ => k))
  (at level 100, k at level 200, only parsing, right associativity) : js_scope.
Local Open Scope js_scope.

(** [try { body } catch (error) { handler }] *)
Definition tryCatch {A} (body : M A) (handler : Api.Error -> M A) : M A :=
  fun w =>
    match body w with
    | (Ret a, w') => (Ret a, w')
    | (Throw error, w') => handler error w'
    end.

(** [try { body } finally { cleanup }] *)
Definition tryFinally {A} (body : M A) (cleanup : M unit) : M A :=
  fun w =>
    match body w with
    | (r, w') =>
        match cleanup w' with
        | (Ret _, w'') => (r, w'')
        | (Throw error, w'') => (Throw error, w'')
        end
    end.

Definition reads {A} (f : World -> A) : M A := fun w => (Ret (f w), w).

Definition modify (f : World -> World) : M unit := fun w => (Ret tt, f w).

Definition emit (e : Event) : M unit :=
  modify (fun w => withLog (log w ++ [e]) w).

(** The world a handler leaves behind. *)
Definition exec {A} (m : M A) (w : World) : World := snd (m w).

Module AsyncStorage.

Definition access {A} (e : Event) (k : M A) : M A :=
  emit e ;;
  fault <- reads (fun w => storageFault (host w) (log w)) ;;
  if (fault : bool) then throw (Api.HostError "AsyncStorage") else k.

Definition getItem (key : string) : M (option string) :=
  access (EGetItem key) (reads (fun w => storage w !! key)).

Definition setItem (key value : string) : M unit :=
  access (ESetItem key value)
    (modify (fun w => withStorage (<[key := value]> (storage w)) w)).

Definition removeItem (key : string) : M unit :=
  access (ERemoveItem key)
    (modify (fun w => withStorage (delete key (storage w)) w)).

End AsyncStorage.

Module axios.

Definition settle {A} (r : Api.NetResult A) : M A :=
  match r with
  | Api.Fulfilled data => ret data
  | Api.Rejected error => throw error
  end.

(** [(await axios.post(url, body, { headers })).data] *)
Definition post {A} (reply : Host -> list Event -> Api.NetResult A)
    (url : string) (body headers : gmap string value) : M A :=
  emit (EPost url body headers) ;;
  r <- reads (fun w => reply (host w) (log w)) ;;
  settle r.

(** [(await axios.get(url, { headers })).data] *)
Definition get {A} (reply : Host -> list Event -> Api.NetResult A)
    (url : string) (headers : gmap string value) : M A :=
  emit (EGet url headers) ;;
  r <- reads (fun w => reply (host w) (log w)) ;;
  settle r.

End axios.

Module Alert.
Definition alert (title : string) (message : value) : M unit :=
  emit (EAlert title message).
End Alert.

Module console.
Definition error (label : string) (e : Api.Error) : M unit :=
  emit (EConsoleError label e).
End console.

Definition backend (path : string) : M string :=
  reads (fun w => EXPO_PUBLIC_BACKEND_URL (host w) +:+ path).

Definition bearer (token : string) : gmap string value :=
  {[ "Authorization" := VStr ("Bearer " +:+ token) ]}.

(** ** react-hook-form, as JobPostingScreen uses it

    The library is not part of the repository. A form record maps field
    names to the values the controls produce (text inputs give strings,
    the switch a boolean, the weekday picker a string array); a field
    that was never set is absent. Of [handleSubmit] only the [required]
    rule is needed: the handler runs when no required field is empty,
    otherwise the messages of the failing rules are reported and the
    handler does not run. *)

Module ReactHookForm.

Inductive FieldValue :=
| FText (s : string)
| FBool (b : bool)
| FList (l : list string).

Definition toValue (v : FieldValue) : value :=
  match v with
  | FText s => VStr s
  | FBool b => VBool b
  | FList l => VArr (List.map VStr l)
  end.

(** Truthiness of [data.field]. *)
Definition truthy (v : option FieldValue) : bool :=
  match v with
  | None => false
  | Some (FText s) => JsString.truthy s
  | Some (FBool b) => b
  | Some (FList _) => true
  end.

(** [ToString] of [data.field]. *)
Definition toString (v : option FieldValue) : string :=
  match v with
  | None => "undefined"
  | Some (FText s) => s
  | Some (FBool true) => "true"
  | Some (FBool false) => "false"
  | Some (FList l) => String.concat "," l
  end.

(** What the [required] rule rejects. *)
Definition isEmpty (v : option FieldValue) : bool :=
  match v with
  | None => true
  | Some (FText s) => negb (JsString.truthy s)
  | Some (FBool b) => negb b
  | Some (FList l) => match l with [] => true | _ :: _ => false end
  end.

(** The messages of the [required] rules that fail on [data];
    a rule is a field name with its message. *)
Definition validate (rules : list (string * string))
    (data : gmap string FieldValue) : list string :=
  List.map snd (List.filter (fun rule => isEmpty (data !! fst rule)) rules).

Definition handleSubmit (rules : list (string * string))
    (onSubmit : gmap string FieldValue -> M unit)
    (data : gmap string FieldValue) : M unit :=
  match validate rules data with
  | [] => onSubmit data
  | messages => emit (EFieldErrors messages)
  end.

(** [reset()] *)
Definition reset : M unit := emit EFormReset.

End ReactHookForm.

(** ** Index: the root shell owning the session *)

Module Index.

Definition setIsAuthenticated (b : bool) : M unit := modify (withIsAuthenticated b).
Definition setUser (u : option value) : M unit := modify (withUser u).
Definition setLoading (b : bool) : M unit := modify (withLoading b).

Definition parse (text : string) : M value :=
  r <- reads (fun w => JSON_parse (host w) text) ;;
  match r with
  | Some v => ret v
  | None => throw (Api.HostError "SyntaxError")
  end.

Definition checkAuthStatus : M unit :=
  tryFinally
    (tryCatch
       (token <- AsyncStorage.getItem "access_token" ;;
        userData <- AsyncStorage.getItem "user_data" ;;
        match token, userData with
        | Some token, Some userData =>
            if JsString.truthy token && JsString.truthy userData then
              parsedUser <- parse userData ;;
              setUser (Some parsedUser) ;;
              setIsAuthenticated true
            else ret tt
        | _, _ => ret tt
        end)
       (fun error => console.error "Error checking auth status:" error))
    (setLoading false).

Definition handleLogin (token : string) (userData : value) : M unit :=
  tryCatch
    (AsyncStorage.setItem "access_token" token ;;
     text <- reads (fun w => JSON_stringify (host w) userData) ;;
     AsyncStorage.setItem "user_data" text ;;
     setUser (Some userData) ;;
     setIsAuthenticated true)
    (fun error =>
       console.error "Error storing auth data:" error ;;
       Alert.alert "Error" (VStr "Failed to save login information")).

Definition handleLogout : M unit :=
  tryCatch
    (AsyncStorage.removeItem "access_token" ;;
     AsyncStorage.removeItem "user_data" ;;
     setUser None ;;
     setIsAuthenticated false)
    (fun error => console.error "Error clearing auth data:" error).

(** What the component returns. *)
Inductive Screen :=
| LoadingView
| Dashboard (user : value)
| Auth.

(** [if (loading) ...; isAuthenticated && user ? <DashboardScreen/> :
    <AuthScreen/>] *)
Definition render (w : World) : Screen :=
  if loading w then LoadingView
  else
    match user w with
    | Some u => if isAuthenticated w && JsValue.truthy u then Dashboard u else Auth
    | None => Auth
    end.

(** A new process over the same device: the three [useState] initial
    values, [false], [null] and [true]. *)
Definition restart (w : World) : World :=
  withLoading true (withUser None (withIsAuthenticated false w)).

End Index.

(** ** AuthScreen *)

Module AuthScreen.

Definition setLoading (b : bool) : M unit := modify (withAuthLoading b).

Definition toggleMode : M unit :=
  modify (fun w => withIsLogin (negb (isLogin w)) w) ;;
  ReactHookForm.reset.

(** [experience_years: data.experience_years ? parseInt(...) : undefined] *)
Definition experienceYears (field : option string) : value :=
  match field with
  | Some s => if JsString.truthy s then VNum (JsNumber.parseInt s) else VUndefined
  | None => VUndefined
  end.

(** The body of the POST. Every field of [AuthFormData] is a string, so
    the form record maps field names to strings; the spread copies all
    of them. *)
Definition requestData (isLogin : bool) (activePortal : Portal)
    (data : gmap string string) : gmap string value :=
  if isLogin then
    <["password" := JsValue.ofField (data !! "password")]>
      (<["email" := JsValue.ofField (data !! "email")]> ∅)
  else
    <["experience_years" := experienceYears (data !! "experience_years")]>
      (<["role" := VStr (portalName activePortal)]> (VStr <$> data)).

Definition endpoint (isLogin : bool) : string :=
  if isLogin then "/auth/login" else "/auth/register".

(** [response.data.access_token]: a TypeError when [response.data] is
    [null] or [undefined]. *)
Definition accessToken (data : Api.AuthData) : M (option string) :=
  match data with
  | Api.NoData => throw (Api.HostError "TypeError")
  | Api.Data access_token => ret access_token
  end.

Definition onSubmit (onLogin : string -> value -> M unit)
    (data : gmap string string) : M unit :=
  isLogin <- reads isLogin ;;
  activePortal <- reads activePortal ;;
  if negb isLogin &&
     negb (bool_decide (data !! "password" = data !! "confirmPassword"))
  then Alert.alert "Error" (VStr "Passwords do not match")
  else
    setLoading true ;;
    tryFinally
      (tryCatch
         (url <- backend ("/api" +:+ endpoint isLogin) ;;
          response_data <-
            axios.post authReply url (requestData isLogin activePortal data) ∅ ;;
          access_token <- accessToken response_data ;;
          match access_token with
          | Some access_token =>
              if JsString.truthy access_token then
                me <- backend "/api/auth/me" ;;
                userData <- axios.get meReply me (bearer access_token) ;;
                onLogin access_token userData ;;
                Alert.alert "Success"
                  (VStr (if isLogin then "Welcome back!"
                         else "Account created successfully!"))
              else ret tt
          | None => ret tt
          end)
         (fun error =>
            console.error "Auth error:" error ;;
            let errorMessage :=
              JsValue.orElse (Api.detail error)
                (VStr "An error occurred. Please try again.") in
            Alert.alert "Error" errorMessage))
      (setLoading false).

End AuthScreen.

(** ** JobsScreen *)

Module JobsScreen.

Import Api.

Definition setJobs (l : list Job) : M unit := modify (withJobs l).
Definition setLoading (b : bool) : M unit := modify (withJobsLoading b).

Definition fetchJobs : M unit :=
  tryFinally
    (tryCatch
       (token <- AsyncStorage.getItem "access_token" ;;
        url <- backend "/api/jobs" ;;
        data <- axios.get jobsReply url (bearer (JsString.interpolate token)) ;;
        setJobs data)
       (fun error =>
          console.error "Error fetching jobs:" error ;;
          Alert.alert "Error" (VStr "Failed to load jobs. Please try again.")))
    (setLoading false).

Section Filter.

(** [String.prototype.toLowerCase] of the host. *)
Variable toLowerCase : string -> string.

(** The arrow function of the first [filtered.filter(...)]. *)
Definition searchMatch (searchText : string) (job : Job) : bool :=
  JsString.includes (toLowerCase (title job)) (toLowerCase searchText) ||
  JsString.includes (toLowerCase (location_city job)) (toLowerCase searchText) ||
  JsString.includes (toLowerCase (location_state job)) (toLowerCase searchText).

(** The arrow function of the second [filtered.filter(...)]:
    [job.job_type === selectedJobType]. *)
Definition typeMatch (selectedJobType : string) (job : Job) : bool :=
  String.eqb (job_type job) selectedJobType.

(** [filterJobs]: the list handed to [setFilteredJobs], as a function
    of the three state variables the closure reads. *)
Definition filterJobs (jobs : list Job) (searchText selectedJobType : string)
  : list Job :=
  let filtered := jobs in
  let filtered :=
    if JsString.truthy searchText
    then List.filter (searchMatch searchText) filtered
    else filtered in
  let filtered :=
    if JsString.truthy selectedJobType
    then List.filter (typeMatch selectedJobType) filtered
    else filtered in
  filtered.

(** The two predicates as the specification words them: the search
    text matches a job when it is empty or occurs, ignoring case, in
    the title, the city or the state; the category matches when it is
    the empty sentinel or equals the job type. *)
Definition textPredicate (t : string) (job : Job) : Prop :=
  t = "" \/
  JsString.includes (toLowerCase (title job)) (toLowerCase t) = true \/
  JsString.includes (toLowerCase (location_city job)) (toLowerCase t) = true \/
  JsString.includes (toLowerCase (location_state job)) (toLowerCase t) = true.

Definition categoryPredicate (c : string) (job : Job) : Prop :=
  c = "" \/ job_type job = c.

End Filter.

Definition applyToJob (jobId : string) : M unit :=
  tryCatch
    (token <- AsyncStorage.getItem "access_token" ;;
     url <- backend ("/api/jobs/" +:+ jobId +:+ "/apply") ;;
     axios.post writeReply url
       {[ "message" := VStr "I am interested in this position." ]}
       (bearer (JsString.interpolate token)) ;;
     Alert.alert "Success" (VStr "Your application has been submitted!") ;;
     fetchJobs)
    (fun error =>
       console.error "Error applying to job:" error ;;
       let errorMessage :=
         JsValue.orElse (detail error)
           (VStr "Failed to apply to job. Please try again.") in
       Alert.alert "Error" errorMessage).

(** [jobTypes]: the filter chips, value and label. *)
Definition jobTypes : list (string * string) :=
  [ ("", "All Positions");
    ("dental_hygienist", "Dental Hygienist");
    ("dentist", "Dentist");
    ("dental_assistant", "Dental Assistant");
    ("front_desk", "Front Desk") ].

(** [formatJobType]; ApplicationsScreen has the same function. *)
Definition formatJobType (jobType : string) : string :=
  JsString.capitalizeWords false (JsString.replaceUnderscores jobType).

End JobsScreen.

(** ** JobPostingScreen *)

Module JobPostingScreen.

Import ReactHookForm.

(** [interface User] of the screen. *)
Record User := mkUser {
  id : string;
  office_address : option string;
  office_city : option string;
  office_state : option string;
  office_zip : option string;
  office_latitude : option JsNumber.number;
  office_longitude : option JsNumber.number
}.

Definition setLoading (b : bool) : M unit := modify (withPostingLoading b).

(** [useForm({ defaultValues })]; [x || ''] on an optional string. *)
Definition defaultValues (user : User) : gmap string FieldValue :=
  <["recurring_days" := FList []]>
    (<["recurring_pattern" := FText "weekly"]>
       (<["is_recurring" := FBool false]>
          (<["location_zip" := FText (default "" (office_zip user))]>
             (<["location_state" := FText (default "" (office_state user))]>
                (<["location_city" := FText (default "" (office_city user))]>
                   (<["location_address" := FText (default "" (office_address user))]>
                      ∅)))))).

(** The [required] rules of the controllers, in render order. *)
Definition rules : list (string * string) :=
  [ ("title", "Job title is required");
    ("job_type", "Please select a position type");
    ("hourly_rate", "Hourly rate is required");
    ("location_address", "Address is required");
    ("location_city", "City is required");
    ("location_state", "State is required");
    ("location_zip", "ZIP code is required");
    ("job_date", "Job date is required");
    ("start_time", "Start time is required");
    ("end_time", "End time is required") ].

(** [new Date(text + 'T00:00:00.000Z').toISOString()] *)
Definition utcMidnight (field : option FieldValue) : M string :=
  r <- reads (fun w =>
                Date_toISOString (host w) (toString field +:+ "T00:00:00.000Z")) ;;
  match r with
  | Some iso => ret iso
  | None => throw (Api.HostError "RangeError")
  end.

(** The object literal [jobData], given the two converted dates. *)
Definition jobData (user : User) (data : gmap string FieldValue)
    (job_date : string) (recurring_end_date : value) : gmap string value :=
  <["recurring_end_date" := recurring_end_date]>
    (<["location_longitude" :=
         VNum (JsNumber.orElse (office_longitude user) JsNumber.zero)]>
       (<["location_latitude" :=
            VNum (JsNumber.orElse (office_latitude user) JsNumber.zero)]>
          (<["job_date" := VStr job_date]>
             (<["hourly_rate" :=
                  VNum (JsNumber.parseFloat (toString (data !! "hourly_rate")))]>
                (toValue <$> data))))).

Definition onSubmit (user : User) (data : gmap string FieldValue) : M unit :=
  setLoading true ;;
  tryFinally
    (tryCatch
       (token <- AsyncStorage.getItem "access_token" ;;
        job_date <- utcMidnight (data !! "job_date") ;;
        recurring_end_date <-
          (if truthy (data !! "recurring_end_date")
           then iso <- utcMidnight (data !! "recurring_end_date") ;; ret (VStr iso)
           else ret VUndefined) ;;
        url <- backend "/api/jobs" ;;
        axios.post writeReply url
          (jobData user data job_date recurring_end_date)
          (bearer (JsString.interpolate token)) ;;
        Alert.alert "Success" (VStr "Job posted successfully!") ;;
        reset)
       (fun error =>
          console.error "Error posting job:" error ;;
          let errorMessage :=
            JsValue.orElse (Api.detail error)
              (VStr "Failed to post job. Please try again.") in
          Alert.alert "Error" errorMessage))
    (setLoading false).

(** [onPress={handleSubmit(onSubmit)}] *)
Definition submit (user : User) : gmap string FieldValue -> M unit :=
  handleSubmit rules (onSubmit user).

(** [weekDays]: value and label. *)
Definition weekDays : list (string * string) :=
  [ ("monday", "Monday"); ("tuesday", "Tuesday"); ("wednesday", "Wednesday");
    ("thursday", "Thursday"); ("friday", "Friday"); ("saturday", "Saturday");
    ("sunday", "Sunday") ].

(** The [onPress] of a weekday button: [updatedDays], the argument of
    [onChange]. *)
Definition toggleDay (value : list string) (day : string) : list string :=
  if bool_decide (day ∈ value)
  then List.filter (fun d => negb (String.eqb d day)) value
  else value ++ [day].

End JobPostingScreen.

(** ** DashboardScreen *)

Module DashboardScreen.

Inductive Tab := jobs | post | applications | profile.

Inductive Content :=
| JobsView
| JobPostingView
| ApplicationsView
| ProfileView
| Nothing.

(** [renderTabContent], by the role of the user and the active tab. *)
Definition renderTabContent (role : string) (activeTab : Tab) : Content :=
  match activeTab with
  | jobs => JobsView
  | post => if String.eqb role "client" then JobPostingView else Nothing
  | applications => ApplicationsView
  | profile => ProfileView
  end.

(** [tabs]: key and label of the tab bar entries. *)
Definition tabs (role : string) : list (Tab * string) :=
  [ (jobs, "Jobs") ] ++
  (if String.eqb role "client" then [ (post, "Post Job") ] else []) ++
  [ (applications, "Applications"); (profile, "Profile") ].

(** The active tab is ['jobs'] at first and afterwards the key of a tab
    bar entry that was pressed. *)
Inductive reachable (role : string) : Tab -> Prop :=
| reachable_initial : reachable role jobs
| reachable_press (activeTab : Tab) (entry : Tab * string) :
    reachable role activeTab -> In entry (tabs role) -> reachable role (fst entry).

(** The profession line of the profile tab:
    [profession_type.replace('_', ' ').replace(/\b\w/g, ...)]. *)
Definition formatProfession (profession_type : string) : string :=
  JsString.capitalizeWords false (JsString.replaceFirstUnderscore profession_type).

End DashboardScreen.

(** ** ApplicationsScreen *)

Module ApplicationsScreen.

Record JobDetails := mkJobDetails {
  title : string;
  job_type : string;
  hourly_rate : JsNumber.number;
  location_city : string;
  location_state : string;
  job_date : string;
  start_time : string;
  end_time : string
}.

Record ProfessionalDetails := mkProfessionalDetails {
  first_name : string;
  last_name : string;
  email : string;
  phone : option string;
  profession_type : option string;
  experience_years : option JsNumber.number
}.

(** [interface Application] *)
Record Application := mkApplication {
  id : string;
  job_id : string;
  message : option string;
  status : string;
  applied_at : string;
  job_details : option JobDetails;
  professional_details : option ProfessionalDetails
}.

(** The state of the component: [applications] and [loading]. *)
Record State := mkState {
  applications : list Application;
  loading : bool
}.

Definition setApplications (l : list Application) (st : State) : State :=
  mkState l (loading st).

Definition setLoading (b : bool) (st : State) : State :=
  mkState (applications st) b.

(** [user.role === 'professional' ? ... : ...] *)
Definition endpoint (role : string) : string :=
  if String.eqb role "professional"
  then "/api/applications/my-applications"
  else "/api/applications/received".

(** [fetchApplications]. The state of the component is threaded through
    the handler: the try block ends with [setApplications], the catch
    block leaves the state alone and cannot throw, and the finally
    block is [setLoading(false)]. [reply] is the backend answering the
    GET with an [Application[]]. *)
Definition fetchApplications
    (reply : list Event -> Api.NetResult (list Application))
    (role : string) (st : State) : M State :=
  st' <- tryCatch
           (token <- AsyncStorage.getItem "access_token" ;;
            url <- backend (endpoint role) ;;
            data <- axios.get (fun _ => reply) url
                      (bearer (JsString.interpolate token)) ;;
            ret (setApplications data st))
           (fun error =>
              console.error "Error fetching applications:" error ;;
              Alert.alert "Error"
                (VStr "Failed to load applications. Please try again.") ;;
              ret st) ;;
  ret (setLoading false st').

Definition getStatusColor (status : string) : string :=
  if String.eqb status "pending" then "#ff9800"
  else if String.eqb status "accepted" then "#4caf50"
  else if String.eqb status "rejected" then "#f44336"
  else "#666".

End ApplicationsScreen.

(** ** Vocabulary of the statements *)

(** The network requests among a list of interactions. *)
Definition requests (l : list Event) : list Event := List.filter isRequest l.

(** What the JSON serialisation of a request body keeps under a key: a
    property whose value is [undefined] is dropped. *)
Definition carries (body : gmap string value) (k : string) : bool :=
  match body !! k with
  | Some VUndefined | None => false
  | Some _ => true
  end.

Module AuthFlow.

(** The history right after the POST of [AuthScreen.onSubmit]. *)
Definition posted (data : gmap string string) (w : World) : list Event :=
  log w ++
  [EPost (EXPO_PUBLIC_BACKEND_URL (host w) +:+
          "/api" +:+ AuthScreen.endpoint (isLogin w))
     (AuthScreen.requestData (isLogin w) (activePortal w) data) ∅].

(** The history right after the GET of the profile with token [tok]. *)
Definition asked (data : gmap string string) (tok : string) (w : World)
  : list Event :=
  posted data w ++
  [EGet (EXPO_PUBLIC_BACKEND_URL (host w) +:+ "/api/auth/me") (bearer tok)].

(** The POST of a submission and the GET of the profile. *)
Definition request (data : gmap string string) (w : World) : Event :=
  EPost (EXPO_PUBLIC_BACKEND_URL (host w) +:+
         "/api" +:+ AuthScreen.endpoint (isLogin w))
    (AuthScreen.requestData (isLogin w) (activePortal w) data) ∅.

Definition profileRequest (tok : string) (w : World) : Event :=
  EGet (EXPO_PUBLIC_BACKEND_URL (host w) +:+ "/api/auth/me") (bearer tok).

(** The submission is not stopped by the password comparison. *)
Definition passes (data : gmap string string) (w : World) : Prop :=
  isLogin w = true \/ data !! "password" = data !! "confirmPassword".

(** The world in which [onLogin] starts once the profile is there. *)
Definition beforeLogin (data : gmap string string) (tok : string) (w : World)
  : World :=
  withLog (asked data tok w) (withAuthLoading true w).

(** The message of the error alert. *)
Definition errorMessage (error : Api.Error) : value :=
  JsValue.orElse (Api.detail error) (VStr "An error occurred. Please try again.").

End AuthFlow.

Module ApplyFlow.

(** The history right after the POST of [JobsScreen.applyToJob]. *)
Definition posted (jobId : string) (w : World) : list Event :=
  log w ++
  [EGetItem "access_token";
   EPost (EXPO_PUBLIC_BACKEND_URL (host w) +:+ "/api/jobs/" +:+ jobId +:+ "/apply")
     {[ "message" := VStr "I am interested in this position." ]}
     (bearer (JsString.interpolate (storage w !! "access_token")))].

Definition fallback : value := VStr "Failed to apply to job. Please try again.".

End ApplyFlow.

Module PostingFlow.

Import ReactHookForm.

(** [new Date(field + 'T00:00:00.000Z').toISOString()] on the host of
    [w]. *)
Definition iso (w : World) (field : option FieldValue) : option string :=
  Date_toISOString (host w) (toString field +:+ "T00:00:00.000Z").

(** The value of the [recurring_end_date] property, when its
    conversion does not throw. *)
Definition endDate (w : World) (data : gmap string FieldValue) : option value :=
  if truthy (data !! "recurring_end_date")
  then VStr <$> iso w (data !! "recurring_end_date")
  else Some VUndefined.

(** The history right after the POST of [JobPostingScreen.onSubmit]. *)
Definition posted (user : JobPostingScreen.User) (data : gmap string FieldValue)
    (job_date : string) (recurring_end_date : value) (w : World) : list Event :=
  log w ++
  [EGetItem "access_token";
   EPost (EXPO_PUBLIC_BACKEND_URL (host w) +:+ "/api/jobs")
     (JobPostingScreen.jobData user data job_date recurring_end_date)
     (bearer (JsString.interpolate (storage w !! "access_token")))].

(** The bodies of the POSTs among a list of interactions. *)
Definition bodies (l : list Event) : list (gmap string value) :=
  List.flat_map (fun e => match e with
                          | EPost _ body _ => [body]
                          | _ => []
                          end) l.

End PostingFlow.

Module JobsFlow.

(** The history right after the GET of [JobsScreen.fetchJobs]. *)
Definition asked (w : World) : list Event :=
  log w ++
  [EGetItem "access_token";
   EGet (EXPO_PUBLIC_BACKEND_URL (host w) +:+ "/api/jobs")
     (bearer (JsString.interpolate (storage w !! "access_token")))].

Definition failed : value := VStr "Failed to load jobs. Please try again.".

(** The world in which the list is fetched again after a successful
    application. *)
Definition applied (jobId : string) (w : World) : World :=
  withLog (ApplyFlow.posted jobId w ++
           [EAlert "Success" (VStr "Your application has been submitted!")]) w.

End JobsFlow.

Module ApplicationsFlow.

(** The history right after the GET of
    [ApplicationsScreen.fetchApplications]. *)
Definition asked (role : string) (w : World) : list Event :=
  log w ++
  [EGetItem "access_token";
   EGet (EXPO_PUBLIC_BACKEND_URL (host w) +:+ ApplicationsScreen.endpoint role)
     (bearer (JsString.interpolate (storage w !! "access_token")))].

Definition failed : value := VStr "Failed to load applications. Please try again.".

End ApplicationsFlow.

Module SessionFlow.

(** The device never fails. *)
Definition reliable (w : World) : Prop :=
  forall history, storageFault (host w) history = false.

(** The alert of a login that could not be stored. *)
Definition notSaved : Event :=
  EAlert "Error" (VStr "Failed to save login information").

End SessionFlow.

(** ** Sample hosts, worlds and inputs *)

Module Sample.

Import Api.

(** A backend that accepts everything: the auth endpoints hand out the
    token ["t0k3n"], the profile is an empty object. *)
Definition host : Host :=
  mkHost "https://api.example"
    (fun _ => Some (VObj ∅)) (fun _ => "{}") (fun s => Some s)
    (fun _ => false)
    (fun _ => Fulfilled (Data (Some "t0k3n")))
    (fun _ => Fulfilled (VObj ∅))
    (fun _ => Fulfilled [])
    (fun _ => Fulfilled tt).

(** The same backend, except that [/api/auth/me] answers 401. *)
Definition hostMeDown : Host :=
  mkHost "https://api.example"
    (fun _ => Some (VObj ∅)) (fun _ => "{}") (fun s => Some s)
    (fun _ => false)
    (fun _ => Fulfilled (Data (Some "t0k3n")))
    (fun _ => Rejected (AxiosError (Some (VObj {[ "detail" := VStr "Unauthorized" ]}))))
    (fun _ => Fulfilled [])
    (fun _ => Fulfilled tt).

(** The auth endpoints answer 200 with a body without [access_token]. *)
Definition hostNoToken : Host :=
  mkHost "https://api.example"
    (fun _ => Some (VObj ∅)) (fun _ => "{}") (fun s => Some s)
    (fun _ => false)
    (fun _ => Fulfilled (Data None))
    (fun _ => Fulfilled (VObj ∅))
    (fun _ => Fulfilled [])
    (fun _ => Fulfilled tt).

(** The auth endpoints answer 200 with the body [null]. *)
Definition hostNullBody : Host :=
  mkHost "https://api.example"
    (fun _ => Some (VObj ∅)) (fun _ => "{}") (fun s => Some s)
    (fun _ => false)
    (fun _ => Fulfilled NoData)
    (fun _ => Fulfilled (VObj ∅))
    (fun _ => Fulfilled [])
    (fun _ => Fulfilled tt).

(** The two POSTs whose response is dropped answer 400 with a detail. *)
Definition hostWriteDown : Host :=
  mkHost "https://api.example"
    (fun _ => Some (VObj ∅)) (fun _ => "{}") (fun s => Some s)
    (fun _ => false)
    (fun _ => Fulfilled (Data (Some "t0k3n")))
    (fun _ => Fulfilled (VObj ∅))
    (fun _ => Fulfilled [])
    (fun _ => Rejected (AxiosError (Some (VObj {[ "detail" := VStr "Already applied" ]})))).

Definition hygienistAM : Job :=
  mkJob "j1" "Hygienist AM" "dental_hygienist" None (JsNumber.Dec false 45 0)
    "1 Main St" "Austin" "TX" "73301" "2025-01-10" "08:00" "12:00"
    "2025-01-01T00:00:00Z" 2.

Definition frontDeskPM : Job :=
  mkJob "j2" "Front Desk PM" "front_desk" None (JsNumber.Dec false 22 0)
    "9 Elm St" "Dallas" "TX" "75001" "2025-01-11" "13:00" "17:00"
    "2025-01-02T00:00:00Z" 0.

(** A world at process start: nothing stored, nobody signed in. *)
Definition coldStart (h : Host) : World :=
  mkWorld h ∅ [] false None true true professional false [] true false.

(** The auth screen switched to registration. *)
Definition registering (h : Host) : World := withIsLogin false (coldStart h).

(** A signed-in professional looking at two jobs. *)
Definition browsing (h : Host) : World :=
  mkWorld h {[ "access_token" := "t0k3n" ]} [] true (Some (VObj ∅)) false
    true professional false [hygienistAM; frontDeskPM] false false.

(** A cold start with a token but no cached profile. *)
Definition halfStored (h : Host) : World :=
  withStorage {[ "access_token" := "t0k3n" ]} (coldStart h).

(** A cold start after an earlier successful login. *)
Definition bothStored (h : Host) : World :=
  withStorage (<["user_data" := "{}"]> {[ "access_token" := "t0k3n" ]})
    (coldStart h).

Definition registration (password confirmPassword : string)
  : gmap string string :=
  <["confirmPassword" := confirmPassword]>
    (<["password" := password]>
       (<["last_name" := "Lovelace"]>
          (<["first_name" := "Ada"]>
             (<["email" := "ada@example.org"]> ∅)))).

Definition credentials : gmap string string :=
  <["password" := "abc123"]> (<["email" := "ada@example.org"]> ∅).

Definition office : JobPostingScreen.User :=
  JobPostingScreen.mkUser "u1" (Some "9 Elm St") (Some "Dallas") (Some "TX")
    (Some "75001") None None.

(** The posting form as a client leaves it after typing the required
    fields only, with [rate] in the hourly-rate input: the recurrence
    switch was never touched. *)
Definition draft (rate : string) : gmap string ReactHookForm.FieldValue :=
  <["end_time" := ReactHookForm.FText "17:00"]>
    (<["start_time" := ReactHookForm.FText "09:00"]>
       (<["job_date" := ReactHookForm.FText "2025-03-01"]>
          (<["hourly_rate" := ReactHookForm.FText rate]>
             (<["job_type" := ReactHookForm.FText "dentist"]>
                (<["title" := ReactHookForm.FText "Weekend cover"]>
                   (JobPostingScreen.defaultValues office)))))).

(** The worlds the sample runs end in. *)
Definition afterMismatch : World :=
  exec (AuthScreen.onSubmit Index.handleLogin (registration "abc123" "abc124"))
    (registering host).

Definition afterMeDown : World :=
  exec (AuthScreen.onSubmit Index.handleLogin credentials) (coldStart hostMeDown).

Definition afterNoToken : World :=
  exec (AuthScreen.onSubmit Index.handleLogin credentials) (coldStart hostNoToken).

Definition afterNullBody : World :=
  exec (AuthScreen.onSubmit Index.handleLogin credentials) (coldStart hostNullBody).

Definition afterRegistration : World :=
  exec (AuthScreen.onSubmit Index.handleLogin (registration "abc123" "abc123"))
    (registering host).

Definition afterHalfStored : World := exec Index.checkAuthStatus (halfStored host).

Definition afterFailedApply : World :=
  exec (JobsScreen.applyToJob "j1") (browsing hostWriteDown).

Definition afterPosting (rate : string) : World :=
  exec (JobPostingScreen.submit office (draft rate)) (browsing host).

(** The same draft after the client switched recurrence on, picked
    Monday under the weekly pattern and then chose the monthly one. *)
Definition monthlyDraft : gmap string ReactHookForm.FieldValue :=
  <["recurring_pattern" := ReactHookForm.FText "monthly"]>
    (<["recurring_days" := ReactHookForm.FList ["monday"]]>
       (<["is_recurring" := ReactHookForm.FBool true]> (draft "35"))).

(** The auth endpoints answer 401 with a detail. *)
Definition hostAuthDown : Host :=
  mkHost "https://api.example"
    (fun _ => Some (VObj ∅)) (fun _ => "{}") (fun s => Some s)
    (fun _ => false)
    (fun _ => Rejected (AxiosError
                          (Some (VObj {[ "detail" := VStr "Incorrect email or password" ]}))))
    (fun _ => Fulfilled (VObj ∅))
    (fun _ => Fulfilled [])
    (fun _ => Fulfilled tt).

(** [/api/jobs] lists one job; the date parser rejects everything. *)
Definition hostOneJob : Host :=
  mkHost "https://api.example"
    (fun _ => Some (VObj ∅)) (fun _ => "{}") (fun _ => None)
    (fun _ => false)
    (fun _ => Fulfilled (Data (Some "t0k3n")))
    (fun _ => Fulfilled (VObj ∅))
    (fun _ => Fulfilled [frontDeskPM])
    (fun _ => Fulfilled tt).

(** [/api/jobs] is unreachable. *)
Definition hostJobsDown : Host :=
  mkHost "https://api.example"
    (fun _ => Some (VObj ∅)) (fun _ => "{}") (fun s => Some s)
    (fun _ => false)
    (fun _ => Fulfilled (Data (Some "t0k3n")))
    (fun _ => Fulfilled (VObj ∅))
    (fun _ => Rejected (AxiosError None))
    (fun _ => Fulfilled tt).

(** A device on which deleting [user_data] fails. *)
Definition hostStuckProfile : Host :=
  mkHost "https://api.example"
    (fun _ => Some (VObj ∅)) (fun _ => "{}") (fun s => Some s)
    (fun history =>
       match List.last history EFormReset with
       | ERemoveItem "user_data" => true
       | _ => false
       end)
    (fun _ => Fulfilled (Data (Some "t0k3n")))
    (fun _ => Fulfilled (VObj ∅))
    (fun _ => Fulfilled [])
    (fun _ => Fulfilled tt).

(** A stored profile that parses to [null]. *)
Definition hostNullProfile : Host :=
  mkHost "https://api.example"
    (fun _ => Some VNull) (fun _ => "null") (fun s => Some s)
    (fun _ => false)
    (fun _ => Fulfilled (Data (Some "t0k3n")))
    (fun _ => Fulfilled VNull)
    (fun _ => Fulfilled [])
    (fun _ => Fulfilled tt).

(** A signed-in user over a device that holds both keys. *)
Definition signedIn (h : Host) : World :=
  mkWorld h (<["user_data" := "{}"]> {[ "access_token" := "t0k3n" ]}) [] true
    (Some (VObj ∅)) false true professional false [] false false.

Definition anApplication : ApplicationsScreen.Application :=
  ApplicationsScreen.mkApplication "a1" "j2" (Some "I am interested in this position.")
    "pending" "2025-01-05T10:00:00Z" None None.

End Sample.

(** ** Facts about host strings *)

Lemma prefix_spec (t s : string) :
  String.prefix t s = true <-> exists b, s = String.append t b.
Proof.
  revert s; induction t as [|c t IH]; intros s; simpl.
  - split; [intros _; exists s; reflexivity | intros _; destruct s; reflexivity].
  - destruct s as [|d s]; simpl.
    + split; [discriminate | intros [b Hb]; discriminate].
    + destruct (Ascii.ascii_dec c d) as [->|Hne].
      * rewrite IH. split; intros [b Hb]; exists b.
        -- rewrite Hb. reflexivity.
        -- change (String d s = String d (String.append t b)) in Hb. congruence.
      * split; [discriminate | intros [b Hb]].
        change (String d s = String c (String.append t b)) in Hb. congruence.
Qed.

(** [includes] decides the substring relation. *)
Lemma includes_spec (s t : string) :
  JsString.includes s t = true <->
  exists a b, s = String.append a (String.append t b).
Proof.
  induction s as [|c s IH].
  - change (JsString.includes "" t) with (String.prefix t "" || false).
    rewrite orb_false_r, prefix_spec. split.
    + intros [b Hb]. exists "", b. exact Hb.
    + intros [a [b Hb]]. destruct a; [eauto | discriminate].
  - change (JsString.includes (String c s) t)
      with (String.prefix t (String c s) || JsString.includes s t).
    rewrite orb_true_iff, prefix_spec, IH. split.
    + intros [[b Hb] | [a [b Hb]]].
      * exists "", b. exact Hb.
      * exists (String c a), b. rewrite Hb. reflexivity.
    + intros [a [b Hb]]. destruct a as [|d a].
      * left. eauto.
      * right. exists a, b.
        change (String c s = String d (String.append a (String.append t b))) in Hb.
        congruence.
Qed.

Lemma includes_empty (s : string) : JsString.includes s "" = true.
Proof. destruct s; reflexivity. Qed.

Lemma truthy_false_iff (s : string) : JsString.truthy s = false <-> s = "".
Proof. destruct s; simpl; split; congruence. Qed.

(** ** The filter *)

Lemma List_filter_sublist {A} (p : A -> bool) (l : list A) :
  sublist (List.filter p l) l.
Proof.
  induction l as [|x l IH]; simpl.
  - constructor.
  - destruct (p x); [apply sublist_skip | apply sublist_cons]; exact IH.
Qed.

Lemma typeMatch_categoryPredicate c job :
  JobsScreen.typeMatch c job = true -> JobsScreen.categoryPredicate c job.
Proof.
  unfold JobsScreen.typeMatch, JobsScreen.categoryPredicate.
  rewrite String.eqb_eq. tauto.
Qed.

Section FilterFacts.

Variable toLowerCase : string -> string.

Local Abbreviation filterJobs := (JobsScreen.filterJobs toLowerCase).
Local Abbreviation searchMatch := (JobsScreen.searchMatch toLowerCase).

Lemma filterJobs_sublist jobs t c : sublist (filterJobs jobs t c) jobs.
Proof.
  unfold JobsScreen.filterJobs.
  destruct (JsString.truthy t), (JsString.truthy c);
    repeat (etrans; [apply List_filter_sublist|]); reflexivity.
Qed.

Lemma searchMatch_textPredicate t job :
  searchMatch t job = true -> JobsScreen.textPredicate toLowerCase t job.
Proof.
  unfold JobsScreen.searchMatch, JobsScreen.textPredicate.
  rewrite !orb_true_iff. tauto.
Qed.

(** The two guarded passes are one pass with the conjunction of the
    guarded predicates. *)
Lemma filterJobs_one_pass jobs t c :
  filterJobs jobs t c =
  List.filter (fun job =>
                 (negb (JsString.truthy t) || searchMatch t job) &&
                 (negb (JsString.truthy c) || JobsScreen.typeMatch c job)) jobs.
Proof.
  unfold JobsScreen.filterJobs.
  destruct (JsString.truthy t), (JsString.truthy c); simpl.
  - induction jobs as [|j jobs IH]; simpl; [reflexivity|].
    destruct (searchMatch t j); simpl; [|exact IH].
    destruct (JobsScreen.typeMatch c j); simpl; congruence.
  - induction jobs as [|j jobs IH]; simpl; [reflexivity|].
    rewrite andb_true_r. destruct (searchMatch t j); congruence.
  - reflexivity.
  - induction jobs as [|j jobs IH]; simpl; congruence.
Qed.

End FilterFacts.

Lemma filterJobs_In (toLowerCase : string -> string) jobs t c job :
  In job (JobsScreen.filterJobs toLowerCase jobs t c) <->
  In job jobs /\
  (JsString.truthy t = false \/ JobsScreen.searchMatch toLowerCase t job = true) /\
  (JsString.truthy c = false \/ JobsScreen.typeMatch c job = true).
Proof.
  rewrite filterJobs_one_pass, List.filter_In, andb_true_iff, !orb_true_iff,
    !negb_true_iff.
  tauto.
Qed.

(** C1. For every job list, search text and category, the list computed
    by [filterJobs] is a sub-list of the jobs in their original relative
    order, has no element from outside the job list, and each of its
    elements satisfies the text predicate (empty text, or a
    case-insensitive occurrence in title, city or state) and the
    category predicate (empty sentinel, or equal job type). *)
Theorem filterJobs_stable_subset
    (toLowerCase : string -> string) (J : list Api.Job) (t c : string) :
  sublist (JobsScreen.filterJobs toLowerCase J t c) J /\
  (forall job, In job (JobsScreen.filterJobs toLowerCase J t c) -> In job J) /\
  (forall job, In job (JobsScreen.filterJobs toLowerCase J t c) ->
     JobsScreen.textPredicate toLowerCase t job /\
     JobsScreen.categoryPredicate c job).
Proof.
  split; [apply filterJobs_sublist|].
  split; intros job Hin; apply filterJobs_In in Hin as (HJ & Ht & Hc).
  - exact HJ.
  - split.
    + destruct Ht as [Ht | Ht].
      * left. apply truthy_false_iff, Ht.
      * apply searchMatch_textPredicate, Ht.
    + destruct Hc as [Hc | Hc].
      * left. apply truthy_false_iff, Hc.
      * apply typeMatch_categoryPredicate, Hc.
Qed.

(** The filter loses nothing: a job of the list that satisfies both
    predicates is in the result. *)
Lemma filterJobs_complete (toLowerCase : string -> string) J t c job :
  In job J ->
  JobsScreen.textPredicate toLowerCase t job ->
  JobsScreen.categoryPredicate c job ->
  In job (JobsScreen.filterJobs toLowerCase J t c).
Proof.
  intros HJ Ht Hc. apply filterJobs_In. split; [exact HJ|]. split.
  - destruct Ht as [-> | Ht]; [left; reflexivity|].
    right. unfold JobsScreen.searchMatch. rewrite !orb_true_iff. tauto.
  - destruct Hc as [-> | Hc]; [left; reflexivity|].
    right. unfold JobsScreen.typeMatch. apply String.eqb_eq, Hc.
Qed.

(** The example of the specification: searching "desk" with no category
    keeps the front-desk job only. *)
Example filterJobs_desk :
  JobsScreen.filterJobs JsString.toLowerCaseAscii
    [Sample.hygienistAM; Sample.frontDeskPM] "desk" "" = [Sample.frontDeskPM].
Proof. reflexivity. Qed.

Example filterJobs_category :
  JobsScreen.filterJobs JsString.toLowerCaseAscii
    [Sample.hygienistAM; Sample.frontDeskPM] "TX" "dental_hygienist"
  = [Sample.hygienistAM].
Proof. reflexivity. Qed.

Lemma filterJobs_stable_subset_witness :
  sublist [Sample.frontDeskPM] [Sample.hygienistAM; Sample.frontDeskPM] /\
  JobsScreen.textPredicate JsString.toLowerCaseAscii "desk" Sample.frontDeskPM.
Proof.
  pose proof (filterJobs_stable_subset JsString.toLowerCaseAscii
                [Sample.hygienistAM; Sample.frontDeskPM] "desk" "") as (Hs & _ & Hp).
  split.
  - exact Hs.
  - apply (Hp Sample.frontDeskPM). simpl. left. reflexivity.
Defined.

(** C7. Filtering with the empty search text and the empty category
    sentinel gives back the job list itself. *)
Theorem filterJobs_identity (toLowerCase : string -> string) (J : list Api.Job) :
  JobsScreen.filterJobs toLowerCase J "" "" = J.
Proof. reflexivity. Qed.

(** ** Running handlers symbolically *)

Lemma requests_app l1 l2 : requests (l1 ++ l2) = requests l1 ++ requests l2.
Proof. apply List.filter_app. Qed.

Ltac run :=
  unfold tryFinally, tryCatch, axios.post, axios.get,
    AsyncStorage.getItem, AsyncStorage.setItem, AsyncStorage.removeItem,
    AsyncStorage.access, Alert.alert, console.error, ReactHookForm.reset,
    AuthScreen.accessToken, backend, bind, reads, emit, modify, ret, throw;
  cbn -[AuthScreen.requestData JobPostingScreen.jobData bearer String.append
        insert lookup singletonM].

(** ** AuthScreen.onSubmit, path by path *)

Section AuthPaths.

Variable onLogin : string -> value -> M unit.
Variable data : gmap string string.
Variable w : World.

Lemma passes_guard :
  AuthFlow.passes data w ->
  negb (isLogin w) &&
  negb (bool_decide (data !! "password" = data !! "confirmPassword")) = false.
Proof.
  intros [-> | ->]; [reflexivity|].
  rewrite bool_decide_eq_true_2 by reflexivity. apply andb_false_r.
Qed.

Lemma onSubmit_mismatch :
  isLogin w = false ->
  data !! "password" <> data !! "confirmPassword" ->
  AuthScreen.onSubmit onLogin data w =
  (Ret tt, withLog (log w ++ [EAlert "Error" (VStr "Passwords do not match")]) w).
Proof.
  intros Hreg Hne. unfold AuthScreen.onSubmit, bind, reads.
  rewrite Hreg, bool_decide_eq_false_2 by exact Hne. reflexivity.
Qed.

Lemma onSubmit_post_rejected err :
  AuthFlow.passes data w ->
  authReply (host w) (AuthFlow.posted data w) = Api.Rejected err ->
  AuthScreen.onSubmit onLogin data w =
  (Ret tt,
   withAuthLoading false
     (withLog (AuthFlow.posted data w ++
               [EConsoleError "Auth error:" err;
                EAlert "Error" (AuthFlow.errorMessage err)]) w)).
Proof.
  intros Hpass Hpost. unfold AuthFlow.posted in *.
  unfold AuthScreen.onSubmit, bind, reads. rewrite (passes_guard Hpass).
  unfold AuthScreen.setLoading. run. rewrite Hpost. run.
  rewrite <- !app_assoc. reflexivity.
Qed.

Lemma onSubmit_no_data :
  AuthFlow.passes data w ->
  authReply (host w) (AuthFlow.posted data w) = Api.Fulfilled Api.NoData ->
  AuthScreen.onSubmit onLogin data w =
  (Ret tt,
   withAuthLoading false
     (withLog (AuthFlow.posted data w ++
               [EConsoleError "Auth error:" (Api.HostError "TypeError");
                EAlert "Error" (VStr "An error occurred. Please try again.")]) w)).
Proof.
  intros Hpass Hpost. unfold AuthFlow.posted in *.
  unfold AuthScreen.onSubmit, bind, reads. rewrite (passes_guard Hpass).
  unfold AuthScreen.setLoading. run. rewrite Hpost. run.
  rewrite <- !app_assoc. reflexivity.
Qed.

Lemma onSubmit_no_token tok :
  AuthFlow.passes data w ->
  authReply (host w) (AuthFlow.posted data w) = Api.Fulfilled (Api.Data tok) ->
  JsString.truthyOpt tok = false ->
  AuthScreen.onSubmit onLogin data w =
  (Ret tt, withAuthLoading false (withLog (AuthFlow.posted data w) w)).
Proof.
  intros Hpass Hpost Htok. unfold AuthFlow.posted in *.
  unfold AuthScreen.onSubmit, bind, reads. rewrite (passes_guard Hpass).
  unfold AuthScreen.setLoading. run. rewrite Hpost. run.
  destruct tok as [tok|]; [simpl in Htok; rewrite Htok|]; reflexivity.
Qed.

Lemma onSubmit_me_rejected tok err :
  AuthFlow.passes data w ->
  authReply (host w) (AuthFlow.posted data w)
  = Api.Fulfilled (Api.Data (Some tok)) ->
  JsString.truthy tok = true ->
  meReply (host w) (AuthFlow.asked data tok w) = Api.Rejected err ->
  AuthScreen.onSubmit onLogin data w =
  (Ret tt,
   withAuthLoading false
     (withLog (AuthFlow.asked data tok w ++
               [EConsoleError "Auth error:" err;
                EAlert "Error" (AuthFlow.errorMessage err)]) w)).
Proof.
  intros Hpass Hpost Htok Hme. unfold AuthFlow.asked, AuthFlow.posted in *.
  unfold AuthScreen.onSubmit, bind, reads. rewrite (passes_guard Hpass).
  unfold AuthScreen.setLoading. run. rewrite Hpost. run. rewrite Htok. run.
  rewrite Hme. run. rewrite <- !app_assoc. reflexivity.
Qed.

Lemma onSubmit_me_fulfilled tok u :
  AuthFlow.passes data w ->
  authReply (host w) (AuthFlow.posted data w)
  = Api.Fulfilled (Api.Data (Some tok)) ->
  JsString.truthy tok = true ->
  meReply (host w) (AuthFlow.asked data tok w) = Api.Fulfilled u ->
  AuthScreen.onSubmit onLogin data w =
  match onLogin tok u (AuthFlow.beforeLogin data tok w) with
  | (Ret _, w') =>
      (Ret tt,
       withAuthLoading false
         (withLog (log w' ++
                   [EAlert "Success"
                      (VStr (if isLogin w then "Welcome back!"
                             else "Account created successfully!"))]) w'))
  | (Throw err, w') =>
      (Ret tt,
       withAuthLoading false
         (withLog (log w' ++
                   [EConsoleError "Auth error:" err;
                    EAlert "Error" (AuthFlow.errorMessage err)]) w'))
  end.
Proof.
  intros Hpass Hpost Htok Hme.
  unfold AuthFlow.beforeLogin, AuthFlow.asked, AuthFlow.posted in *.
  unfold AuthScreen.onSubmit, bind, reads. rewrite (passes_guard Hpass).
  unfold AuthScreen.setLoading. run. rewrite Hpost. run. rewrite Htok. run.
  rewrite Hme. run.
  destruct (onLogin tok u _) as [[[]|err] w']; run; rewrite <- ?app_assoc; reflexivity.
Qed.

End AuthPaths.

Arguments onSubmit_mismatch onLogin {data w}.
Arguments onSubmit_post_rejected onLogin {data w err}.
Arguments onSubmit_no_data onLogin {data w}.
Arguments onSubmit_no_token onLogin {data w tok}.
Arguments onSubmit_me_rejected onLogin {data w tok err}.
Arguments onSubmit_me_fulfilled onLogin {data w tok u}.

(** ** Index.handleLogin *)

Lemma handleLogin_spec (tok : string) (u : value) (w0 : World) :
  exists w1 rest,
    Index.handleLogin tok u w0 = (Ret tt, w1) /\
    log w1 = log w0 ++ rest /\
    (isAuthenticated w1 = isAuthenticated w0 /\ user w1 = user w0 \/
     isAuthenticated w1 = true /\ user w1 = Some u /\
     storage w1 !! "access_token" = Some tok).
Proof.
  unfold Index.handleLogin, Index.setUser, Index.setIsAuthenticated. run.
  destruct (storageFault (host w0) (log w0 ++ [ESetItem "access_token" tok])); run.
  - eexists _, _. split; [reflexivity|]. cbn.
    rewrite <- !app_assoc. split; [reflexivity | left; split; reflexivity].
  - destruct (storageFault (host w0) _); run;
      (eexists _, _; split; [reflexivity|]; cbn -[insert lookup];
       rewrite <- ?app_assoc; split; [reflexivity|]).
    + left; split; reflexivity.
    + right. split; [reflexivity|]. split; [reflexivity|].
      rewrite lookup_insert_ne by discriminate. apply lookup_insert_eq.
Qed.

(** ** Consequences for the whole submission *)

(** Whatever the backend and the device do, a submission that gets past
    the password comparison starts with the POST. *)
Lemma onSubmit_starts_with_post (data : gmap string string) (w : World) :
  AuthFlow.passes data w ->
  exists rest,
    log (exec (AuthScreen.onSubmit Index.handleLogin data) w) =
    AuthFlow.posted data w ++ rest.
Proof.
  intros Hpass. unfold exec.
  destruct (authReply (host w) (AuthFlow.posted data w)) as [[|tok]|err] eqn:Hpost.
  - rewrite (onSubmit_no_data _ Hpass Hpost). cbn. eexists. reflexivity.
  - destruct (JsString.truthyOpt tok) eqn:Htok.
    + destruct tok as [tok|]; [simpl in Htok | discriminate].
      destruct (meReply (host w) (AuthFlow.asked data tok w)) as [u|err] eqn:Hme.
      * rewrite (onSubmit_me_fulfilled _ Hpass Hpost Htok Hme).
        destruct (handleLogin_spec tok u (AuthFlow.beforeLogin data tok w))
          as (w1 & rest & -> & Hlog & _).
        cbn. rewrite Hlog. cbn. unfold AuthFlow.asked.
        rewrite <- !app_assoc. eexists. reflexivity.
      * rewrite (onSubmit_me_rejected _ Hpass Hpost Htok Hme). cbn.
        unfold AuthFlow.asked. rewrite <- !app_assoc. eexists. reflexivity.
    + rewrite (onSubmit_no_token _ Hpass Hpost Htok). cbn.
      exists []. symmetry. apply app_nil_r.
  - rewrite (onSubmit_post_rejected _ Hpass Hpost). cbn. eexists. reflexivity.
Qed.

Lemma requestData_register_spread (p : Portal) (data : gmap string string) (k : string) :
  k <> "role" -> k <> "experience_years" ->
  AuthScreen.requestData false p data !! k = VStr <$> data !! k.
Proof.
  intros Hrole Hyears. unfold AuthScreen.requestData.
  rewrite !lookup_insert_ne by congruence. apply lookup_fmap.
Qed.

(** C4. A registration whose password and confirmPassword differ issues
    no network request: the only effect of the submission is the alert
    "Passwords do not match". *)
Theorem mismatch_never_reaches_network
    (onLogin : string -> value -> M unit) (data : gmap string string) (w : World) :
  isLogin w = false ->
  data !! "password" <> data !! "confirmPassword" ->
  let w' := exec (AuthScreen.onSubmit onLogin data) w in
  requests (log w') = requests (log w) /\
  log w' = log w ++ [EAlert "Error" (VStr "Passwords do not match")] /\
  w' = withLog (log w') w.
Proof.
  intros Hreg Hne w'. subst w'. unfold exec.
  rewrite (onSubmit_mismatch onLogin Hreg Hne). cbn.
  rewrite requests_app. cbn. rewrite app_nil_r. auto.
Qed.

Lemma mismatch_never_reaches_network_witness :
  requests (log Sample.afterMismatch) = [] /\
  log Sample.afterMismatch = [EAlert "Error" (VStr "Passwords do not match")].
Proof.
  assert (Hreg : isLogin (Sample.registering Sample.host) = false) by reflexivity.
  assert (Hne : Sample.registration "abc123" "abc124" !! "password" <>
                Sample.registration "abc123" "abc124" !! "confirmPassword")
    by (vm_compute; discriminate).
  destruct (mismatch_never_reaches_network Index.handleLogin
              (Sample.registration "abc123" "abc124")
              (Sample.registering Sample.host) Hreg Hne)
    as (Hreq & Hlog & _).
  split; [exact Hreq | exact Hlog].
Defined.

(** C5. The session is established in two steps. Once the POST to
    /auth/login or /auth/register has answered with a token, /auth/me is
    requested with exactly that token as the bearer; when that request
    fails, isAuthenticated is left as it was. With the session
    unestablished before the submission, isAuthenticated becomes true
    only when a token was obtained and /auth/me succeeded with it. *)
Theorem session_two_steps (data : gmap string string) (w : World) :
  let w' := exec (AuthScreen.onSubmit Index.handleLogin data) w in
  (forall tok,
     AuthFlow.passes data w ->
     authReply (host w) (AuthFlow.posted data w)
     = Api.Fulfilled (Api.Data (Some tok)) ->
     JsString.truthy tok = true ->
     (exists rest, log w' = AuthFlow.asked data tok w ++ rest) /\
     (forall err,
        meReply (host w) (AuthFlow.asked data tok w) = Api.Rejected err ->
        isAuthenticated w' = isAuthenticated w)) /\
  (isAuthenticated w = false ->
   isAuthenticated w' = true ->
   exists tok u,
     authReply (host w) (AuthFlow.posted data w)
     = Api.Fulfilled (Api.Data (Some tok)) /\
     meReply (host w) (AuthFlow.asked data tok w) = Api.Fulfilled u /\
     user w' = Some u).
Proof.
  intros w'. subst w'. unfold exec. split.
  - intros tok Hpass Hpost Htok.
    destruct (meReply (host w) (AuthFlow.asked data tok w)) as [u|err] eqn:Hme.
    + rewrite (onSubmit_me_fulfilled _ Hpass Hpost Htok Hme).
      destruct (handleLogin_spec tok u (AuthFlow.beforeLogin data tok w))
        as (w1 & rest & -> & Hlog & _).
      cbn. rewrite Hlog. cbn. split; [|discriminate].
      rewrite <- app_assoc. eexists. reflexivity.
    + rewrite (onSubmit_me_rejected _ Hpass Hpost Htok Hme). cbn.
      split; [eexists; reflexivity | reflexivity].
  - intros Hout Hin.
    destruct (isLogin w) eqn:Hmode;
      [| destruct (decide (data !! "password" = data !! "confirmPassword"))
           as [Heq | Hne]].
    3: { rewrite (onSubmit_mismatch _ Hmode Hne) in Hin. cbn in Hin. congruence. }
    all: assert (Hpass : AuthFlow.passes data w)
      by (unfold AuthFlow.passes; rewrite ?Hmode; auto).
    all: destruct (authReply (host w) (AuthFlow.posted data w)) as [body|err] eqn:Hpost;
      [| rewrite (onSubmit_post_rejected _ Hpass Hpost) in Hin; cbn in Hin; congruence].
    all: destruct body as [|tok];
      [rewrite (onSubmit_no_data _ Hpass Hpost) in Hin; cbn in Hin; congruence|].
    all: destruct (JsString.truthyOpt tok) eqn:Htok;
      [| rewrite (onSubmit_no_token _ Hpass Hpost Htok) in Hin; cbn in Hin; congruence].
    all: destruct tok as [tok|]; [simpl in Htok | discriminate].
    all: destruct (meReply (host w) (AuthFlow.asked data tok w)) as [u|err] eqn:Hme;
      [| rewrite (onSubmit_me_rejected _ Hpass Hpost Htok Hme) in Hin; cbn in Hin;
         congruence].
    all: exists tok, u; split; [first [reflexivity | exact Hpost]|];
      split; [first [reflexivity | exact Hme]|].
    all: rewrite (onSubmit_me_fulfilled _ Hpass Hpost Htok Hme) in Hin |- *.
    all: destruct (handleLogin_spec tok u (AuthFlow.beforeLogin data tok w))
        as (w1 & rest & Hrun & _ & [[Hsame _] | (_ & Huser & _)]);
      rewrite Hrun in Hin |- *; cbn in Hin |- *;
      [cbn in Hsame; congruence | exact Huser].
Qed.

Lemma session_two_steps_witness :
  isAuthenticated Sample.afterMeDown = false /\
  exists rest,
    log Sample.afterMeDown =
    AuthFlow.asked Sample.credentials "t0k3n" (Sample.coldStart Sample.hostMeDown)
    ++ rest.
Proof.
  destruct (session_two_steps Sample.credentials (Sample.coldStart Sample.hostMeDown))
    as [Hsteps _].
  destruct (Hsteps "t0k3n") as [Hlog Hfail].
  - left. reflexivity.
  - reflexivity.
  - reflexivity.
  - split; [| exact Hlog].
    exact (Hfail (Api.AxiosError (Some (VObj {[ "detail" := VStr "Unauthorized" ]})))
             eq_refl).
Defined.

(** With a backend that answers both steps the session is established
    and the profile and the token are kept. *)
Example login_establishes_session :
  let w' := exec (AuthScreen.onSubmit Index.handleLogin Sample.credentials)
              (Sample.coldStart Sample.host) in
  isAuthenticated w' = true /\
  user w' = Some (VObj ∅) /\
  storage w' !! "access_token" = Some "t0k3n" /\
  requests (log w') =
  [EPost "https://api.example/api/auth/login"
     (AuthScreen.requestData true professional Sample.credentials) ∅;
   EGet "https://api.example/api/auth/me" (bearer "t0k3n")].
Proof. vm_compute. auto. Qed.

(** When the profile request fails the run does not depend on the
    [onLogin] callback at all: it is never invoked. *)
Lemma onLogin_not_run_when_me_fails
    (onLogin onLogin' : string -> value -> M unit) data w tok err :
  AuthFlow.passes data w ->
  authReply (host w) (AuthFlow.posted data w)
  = Api.Fulfilled (Api.Data (Some tok)) ->
  JsString.truthy tok = true ->
  meReply (host w) (AuthFlow.asked data tok w) = Api.Rejected err ->
  AuthScreen.onSubmit onLogin data w = AuthScreen.onSubmit onLogin' data w.
Proof.
  intros Hpass Hpost Htok Hme.
  rewrite (onSubmit_me_rejected onLogin Hpass Hpost Htok Hme).
  rewrite (onSubmit_me_rejected onLogin' Hpass Hpost Htok Hme). reflexivity.
Qed.

(** C8, as the code has it. When the login or registration request
    succeeds with a body other than null that has no access_token, the
    submission ends silently: the POST is the only interaction (no
    /auth/me request, no alert), [onLogin] is not run and the session
    state is untouched. When the body is null, reading its access_token
    throws inside the try block: there is still no /auth/me request and
    the session state is untouched, but the catch block shows the
    generic error alert. *)
Theorem missing_token_is_silent
    (onLogin : string -> value -> M unit) (data : gmap string string) (w : World) :
  AuthFlow.passes data w ->
  (authReply (host w) (AuthFlow.posted data w) = Api.Fulfilled (Api.Data None) ->
   AuthScreen.onSubmit onLogin data w =
     (Ret tt, withAuthLoading false (withLog (AuthFlow.posted data w) w)) /\
   log (exec (AuthScreen.onSubmit onLogin data) w) = AuthFlow.posted data w /\
   isAuthenticated (exec (AuthScreen.onSubmit onLogin data) w) = isAuthenticated w /\
   user (exec (AuthScreen.onSubmit onLogin data) w) = user w /\
   storage (exec (AuthScreen.onSubmit onLogin data) w) = storage w) /\
  (authReply (host w) (AuthFlow.posted data w) = Api.Fulfilled Api.NoData ->
   log (exec (AuthScreen.onSubmit onLogin data) w) =
   AuthFlow.posted data w ++
   [EConsoleError "Auth error:" (Api.HostError "TypeError");
    EAlert "Error" (VStr "An error occurred. Please try again.")] /\
   isAuthenticated (exec (AuthScreen.onSubmit onLogin data) w) = isAuthenticated w /\
   user (exec (AuthScreen.onSubmit onLogin data) w) = user w /\
   storage (exec (AuthScreen.onSubmit onLogin data) w) = storage w).
Proof.
  intros Hpass. split; intros Hpost; unfold exec.
  - rewrite (onSubmit_no_token onLogin Hpass Hpost eq_refl). cbn. auto.
  - rewrite (onSubmit_no_data onLogin Hpass Hpost). cbn. auto.
Qed.

Lemma missing_token_is_silent_witness :
  (log Sample.afterNoToken =
   AuthFlow.posted Sample.credentials (Sample.coldStart Sample.hostNoToken) /\
   isAuthenticated Sample.afterNoToken = false) /\
  (log Sample.afterNullBody =
   AuthFlow.posted Sample.credentials (Sample.coldStart Sample.hostNullBody) ++
   [EConsoleError "Auth error:" (Api.HostError "TypeError");
    EAlert "Error" (VStr "An error occurred. Please try again.")] /\
   isAuthenticated Sample.afterNullBody = false).
Proof.
  assert (Hpass : forall h, AuthFlow.passes Sample.credentials (Sample.coldStart h))
    by (intros h; left; reflexivity).
  destruct (missing_token_is_silent Index.handleLogin Sample.credentials
              (Sample.coldStart Sample.hostNoToken) (Hpass _)) as [Hsilent _].
  destruct (missing_token_is_silent Index.handleLogin Sample.credentials
              (Sample.coldStart Sample.hostNullBody) (Hpass _)) as [_ Hnull].
  destruct (Hsilent eq_refl) as (_ & Hlog & Hauth & _).
  destruct (Hnull eq_refl) as (Hlog' & Hauth' & _).
  split; split; assumption.
Defined.

(** C8 fails on the code. A 200 answer whose body is null has no
    access_token field; the submission is not silent on it: the read of
    [response.data.access_token] throws and the user is shown the alert
    "An error occurred. Please try again.". *)
Lemma null_body_alerts :
  authReply Sample.hostNullBody
    (AuthFlow.posted Sample.credentials (Sample.coldStart Sample.hostNullBody))
  = Api.Fulfilled Api.NoData /\
  log Sample.afterNullBody =
  [EPost "https://api.example/api/auth/login"
     (AuthScreen.requestData true professional Sample.credentials) ∅;
   EConsoleError "Auth error:" (Api.HostError "TypeError");
   EAlert "Error" (VStr "An error occurred. Please try again.")].
Proof. split; reflexivity. Qed.

(** An empty token is treated like a missing one. *)
Lemma empty_token_is_silent
    (onLogin : string -> value -> M unit) (data : gmap string string) (w : World) :
  AuthFlow.passes data w ->
  authReply (host w) (AuthFlow.posted data w) = Api.Fulfilled (Api.Data (Some "")) ->
  AuthScreen.onSubmit onLogin data w =
    (Ret tt, withAuthLoading false (withLog (AuthFlow.posted data w) w)).
Proof. intros Hpass Hpost. exact (onSubmit_no_token onLogin Hpass Hpost eq_refl). Qed.

(** C9. A registration that gets past the password comparison sends the
    confirmPassword field to /api/auth/register: the body is the spread
    of the whole form record, so it carries the confirmation as typed. *)
Theorem register_sends_confirmPassword
    (data : gmap string string) (w : World) (c : string) :
  isLogin w = false ->
  data !! "password" = data !! "confirmPassword" ->
  data !! "confirmPassword" = Some c ->
  exists body rest,
    log (exec (AuthScreen.onSubmit Index.handleLogin data) w) =
    log w ++
    EPost (EXPO_PUBLIC_BACKEND_URL (host w) +:+ "/api/auth/register") body ∅
    :: rest /\
    body !! "confirmPassword" = Some (VStr c) /\
    carries body "confirmPassword" = true.
Proof.
  intros Hreg Heq Hc.
  destruct (onSubmit_starts_with_post data w) as [rest Hlog].
  { right. exact Heq. }
  exists (AuthScreen.requestData false (activePortal w) data), rest.
  assert (Hbody : AuthScreen.requestData false (activePortal w) data
                  !! "confirmPassword" = Some (VStr c)).
  { rewrite requestData_register_spread by discriminate. rewrite Hc. reflexivity. }
  split; [| split; [exact Hbody | unfold carries; rewrite Hbody; reflexivity]].
  rewrite Hlog. unfold AuthFlow.posted. rewrite Hreg, <- app_assoc. reflexivity.
Qed.

Lemma register_sends_confirmPassword_witness :
  exists body rest,
    log Sample.afterRegistration =
    EPost "https://api.example/api/auth/register" body ∅ :: rest /\
    body !! "confirmPassword" = Some (VStr "abc123") /\
    carries body "confirmPassword" = true.
Proof.
  exact (register_sends_confirmPassword (Sample.registration "abc123" "abc123")
           (Sample.registering Sample.host) "abc123" eq_refl eq_refl eq_refl).
Defined.

(** ** Index.checkAuthStatus *)

Ltac settle_restore :=
  repeat split; try reflexivity; intros;
  first [ congruence | solve [eauto] | intuition congruence ].

(** C10. At cold start [checkAuthStatus] always completes and ends with
    loading false, whatever the device and the stored text do; it never
    writes the storage; it turns isAuthenticated on only when both
    access_token and user_data are stored; when either is missing the
    session state stays as it was. *)
Theorem checkAuthStatus_restore (w : World) :
  let w' := exec Index.checkAuthStatus w in
  fst (Index.checkAuthStatus w) = Ret tt /\
  loading w' = false /\
  storage w' = storage w /\
  (isAuthenticated w = false ->
   isAuthenticated w' = true ->
   exists token userData,
     storage w !! "access_token" = Some token /\
     storage w !! "user_data" = Some userData) /\
  (storage w !! "access_token" = None \/ storage w !! "user_data" = None ->
   isAuthenticated w' = isAuthenticated w /\ user w' = user w).
Proof.
  cbv zeta. unfold exec, Index.checkAuthStatus, Index.parse, Index.setUser,
    Index.setIsAuthenticated, Index.setLoading.
  run.
  destruct (storageFault (host w) (log w ++ [EGetItem "access_token"])); run;
    [settle_restore|].
  destruct (storageFault (host w) _); run; [settle_restore|].
  destruct (storage w !! "access_token") as [token|] eqn:Htoken; run;
    [|settle_restore].
  destruct (storage w !! "user_data") as [userData|] eqn:Hdata; run;
    [|settle_restore].
  destruct (JsString.truthy token && JsString.truthy userData); run;
    [|settle_restore].
  destruct (JSON_parse (host w) userData); run; settle_restore.
Qed.

(** With both keys stored, non-empty and parsable, and a working device,
    the session is restored with the parsed profile. *)
Lemma checkAuthStatus_restores (w : World) (token userData : string) (parsed : value) :
  storageFault (host w) (log w ++ [EGetItem "access_token"]) = false ->
  storageFault (host w)
    ((log w ++ [EGetItem "access_token"]) ++ [EGetItem "user_data"]) = false ->
  storage w !! "access_token" = Some token ->
  storage w !! "user_data" = Some userData ->
  JsString.truthy token = true ->
  JsString.truthy userData = true ->
  JSON_parse (host w) userData = Some parsed ->
  isAuthenticated (exec Index.checkAuthStatus w) = true /\
  user (exec Index.checkAuthStatus w) = Some parsed.
Proof.
  intros Hd1 Hd2 Htoken Hdata Ht Hu Hparse.
  unfold exec, Index.checkAuthStatus, Index.parse, Index.setUser,
    Index.setIsAuthenticated, Index.setLoading.
  run. rewrite Hd1. run. rewrite Hd2. run. rewrite Htoken, Hdata. run.
  rewrite Ht, Hu. run. rewrite Hparse. run. split; reflexivity.
Qed.

Lemma checkAuthStatus_restore_witness :
  isAuthenticated Sample.afterHalfStored = false /\
  storage Sample.afterHalfStored !! "access_token" = Some "t0k3n" /\
  loading Sample.afterHalfStored = false.
Proof.
  destruct (checkAuthStatus_restore (Sample.halfStored Sample.host))
    as (_ & Hloading & Hstorage & _ & Hmissing).
  destruct Hmissing as [Hauth _]; [right; reflexivity|].
  unfold Sample.afterHalfStored. rewrite Hstorage.
  split; [exact Hauth | split; [reflexivity | exact Hloading]].
Defined.

Example checkAuthStatus_both_stored :
  let w' := exec Index.checkAuthStatus (Sample.bothStored Sample.host) in
  isAuthenticated w' = true /\ user w' = Some (VObj ∅) /\ loading w' = false.
Proof. vm_compute. auto. Qed.

(** ** JobsScreen.applyToJob *)

Lemma applyToJob_rejected (jobId : string) (w : World) (err : Api.Error) :
  storageFault (host w) (log w ++ [EGetItem "access_token"]) = false ->
  writeReply (host w) (ApplyFlow.posted jobId w) = Api.Rejected err ->
  JobsScreen.applyToJob jobId w =
  (Ret tt,
   withLog (ApplyFlow.posted jobId w ++
            [EConsoleError "Error applying to job:" err;
             EAlert "Error" (JsValue.orElse (Api.detail err) ApplyFlow.fallback)]) w).
Proof.
  intros Hdisk Hpost. unfold ApplyFlow.posted in *.
  unfold JobsScreen.applyToJob. run. rewrite Hdisk. run.
  rewrite <- !app_assoc. cbn [app]. rewrite Hpost. run.
  rewrite <- !app_assoc. reflexivity.
Qed.

(** A failure of the device before the request is handled the same way,
    with the fallback message. *)
Lemma applyToJob_storage_fault (jobId : string) (w : World) :
  storageFault (host w) (log w ++ [EGetItem "access_token"]) = true ->
  JobsScreen.applyToJob jobId w =
  (Ret tt,
   withLog (log w ++
            [EGetItem "access_token";
             EConsoleError "Error applying to job:" (Api.HostError "AsyncStorage");
             EAlert "Error" ApplyFlow.fallback]) w).
Proof.
  intros Hdisk. unfold JobsScreen.applyToJob. run. rewrite Hdisk. run.
  rewrite <- !app_assoc. reflexivity.
Qed.

(** C6. When the POST to /api/jobs/{id}/apply is rejected, the jobs
    state (and with it every applications_count) is exactly what it was,
    nothing but the log of interactions changes, and the alert shows the
    server's detail when there is one and the fallback text otherwise. *)
Theorem failed_apply_keeps_jobs (jobId : string) (w : World) (err : Api.Error) :
  storageFault (host w) (log w ++ [EGetItem "access_token"]) = false ->
  writeReply (host w) (ApplyFlow.posted jobId w) = Api.Rejected err ->
  let w' := exec (JobsScreen.applyToJob jobId) w in
  jobs w' = jobs w /\
  List.map Api.applications_count (jobs w') =
  List.map Api.applications_count (jobs w) /\
  w' = withLog (log w') w /\
  log w' =
  ApplyFlow.posted jobId w ++
  [EConsoleError "Error applying to job:" err;
   EAlert "Error"
     (if JsValue.truthy (Api.detail err) then Api.detail err
      else ApplyFlow.fallback)].
Proof.
  intros Hdisk Hpost. cbv zeta. unfold exec.
  rewrite (applyToJob_rejected jobId w err Hdisk Hpost). cbn.
  unfold JsValue.orElse. auto.
Qed.

Lemma failed_apply_keeps_jobs_witness :
  jobs Sample.afterFailedApply = [Sample.hygienistAM; Sample.frontDeskPM] /\
  List.last (log Sample.afterFailedApply) EFormReset
  = EAlert "Error" (VStr "Already applied").
Proof.
  destruct (failed_apply_keeps_jobs "j1" (Sample.browsing Sample.hostWriteDown)
              (Api.AxiosError (Some (VObj {[ "detail" := VStr "Already applied" ]})))
              eq_refl eq_refl)
    as (Hjobs & _ & _ & Hlog).
  unfold Sample.afterFailedApply. rewrite Hjobs, Hlog. split; reflexivity.
Defined.

(** A rejection without a response (transport failure) shows the
    fallback. *)
Example failed_apply_fallback :
  Api.detail (Api.AxiosError None) = VUndefined /\
  JsValue.orElse (Api.detail (Api.AxiosError None)) ApplyFlow.fallback
  = ApplyFlow.fallback.
Proof. split; reflexivity. Qed.

(** On success the list is re-fetched: the jobs state becomes what the
    backend lists. *)
Example apply_success_refetches :
  let w' := exec (JobsScreen.applyToJob "j1") (Sample.browsing Sample.host) in
  jobs w' = [] /\
  requests (log w') =
  [EPost "https://api.example/api/jobs/j1/apply"
     {[ "message" := VStr "I am interested in this position." ]} (bearer "t0k3n");
   EGet "https://api.example/api/jobs" (bearer "t0k3n")].
Proof. vm_compute. auto. Qed.

(** ** JobPostingScreen *)

Lemma validate_nil_iff rules data :
  ReactHookForm.validate rules data = [] <->
  forall rule, In rule rules -> ReactHookForm.isEmpty (data !! fst rule) = false.
Proof.
  unfold ReactHookForm.validate. induction rules as [|r rules IH]; simpl.
  - split; [intros _ rule [] | reflexivity].
  - destruct (ReactHookForm.isEmpty (data !! r.1)) eqn:Hr; simpl.
    + split; [discriminate|]. intros H. specialize (H r (or_introl eq_refl)). congruence.
    + rewrite IH. split.
      * intros H rule [<- | Hin]; [exact Hr | exact (H rule Hin)].
      * intros H rule Hin. apply H. right. exact Hin.
Qed.

Lemma handleSubmit_valid rules onSubmit data :
  ReactHookForm.validate rules data = [] ->
  ReactHookForm.handleSubmit rules onSubmit data = onSubmit data.
Proof. intros H. unfold ReactHookForm.handleSubmit. rewrite H. reflexivity. Qed.

Lemma handleSubmit_invalid rules onSubmit data w :
  ReactHookForm.validate rules data <> [] ->
  ReactHookForm.handleSubmit rules onSubmit data w =
  (Ret tt, withLog (log w ++ [EFieldErrors (ReactHookForm.validate rules data)]) w).
Proof.
  intros H. unfold ReactHookForm.handleSubmit.
  destruct (ReactHookForm.validate rules data); [congruence | reflexivity].
Qed.

Lemma posting_reaches_post user data w jd ed :
  storageFault (host w) (log w ++ [EGetItem "access_token"]) = false ->
  PostingFlow.iso w (data !! "job_date") = Some jd ->
  PostingFlow.endDate w data = Some ed ->
  exists rest,
    log (exec (JobPostingScreen.onSubmit user data) w) =
    PostingFlow.posted user data jd ed w ++ rest.
Proof.
  intros Hdisk Hjd Hed. unfold PostingFlow.endDate, PostingFlow.iso in *.
  unfold exec, PostingFlow.posted, JobPostingScreen.onSubmit,
    JobPostingScreen.utcMidnight, JobPostingScreen.setLoading.
  run. rewrite Hdisk. run. rewrite Hjd. clear Hjd. run.
  destruct (ReactHookForm.truthy (data !! "recurring_end_date")); run.
  - destruct (Date_toISOString (host w) _) as [iso|]; [|discriminate].
    simpl in Hed. injection Hed as <-. run.
    destruct (writeReply (host w) _); run;
      eexists; rewrite <- !app_assoc; cbn [app]; reflexivity.
  - injection Hed as <-.
    destruct (writeReply (host w) _); run;
      eexists; rewrite <- !app_assoc; cbn [app]; reflexivity.
Qed.

Lemma jobData_spread user data jd ed (k : string) :
  k <> "recurring_end_date" -> k <> "location_longitude" ->
  k <> "location_latitude" -> k <> "job_date" -> k <> "hourly_rate" ->
  JobPostingScreen.jobData user data jd ed !! k = ReactHookForm.toValue <$> data !! k.
Proof.
  intros. unfold JobPostingScreen.jobData.
  rewrite !lookup_insert_ne by congruence. apply lookup_fmap.
Qed.

Lemma endDate_carried w data ed :
  PostingFlow.endDate w data = Some ed ->
  match ed with VUndefined => false | _ => true end =
  ReactHookForm.truthy (data !! "recurring_end_date").
Proof.
  unfold PostingFlow.endDate.
  destruct (ReactHookForm.truthy (data !! "recurring_end_date")).
  - destruct (PostingFlow.iso w _); [|discriminate]. intros [= <-]. reflexivity.
  - intros [= <-]. reflexivity.
Qed.

(** C2, as the code has it. Whenever the submission reaches the POST,
    the body carries recurring_pattern and recurring_days exactly as the
    form record holds them, with no regard to is_recurring or to the
    pattern, and it carries recurring_end_date exactly when the end-date
    field of the form is a non-empty text. *)
Theorem recurrence_fields_are_spread
    (user : JobPostingScreen.User) (data : gmap string ReactHookForm.FieldValue)
    (w : World) (jd : string) (ed : value) :
  storageFault (host w) (log w ++ [EGetItem "access_token"]) = false ->
  PostingFlow.iso w (data !! "job_date") = Some jd ->
  PostingFlow.endDate w data = Some ed ->
  let body := JobPostingScreen.jobData user data jd ed in
  (exists rest,
     log (exec (JobPostingScreen.onSubmit user data) w) =
     PostingFlow.posted user data jd ed w ++ rest) /\
  body !! "recurring_pattern" = ReactHookForm.toValue <$> data !! "recurring_pattern" /\
  body !! "recurring_days" = ReactHookForm.toValue <$> data !! "recurring_days" /\
  carries body "recurring_end_date" = ReactHookForm.truthy (data !! "recurring_end_date").
Proof.
  intros Hdisk Hjd Hed body. subst body.
  split; [exact (posting_reaches_post user data w jd ed Hdisk Hjd Hed)|].
  split; [apply jobData_spread; discriminate|].
  split; [apply jobData_spread; discriminate|].
  unfold carries, JobPostingScreen.jobData. rewrite lookup_insert_eq.
  rewrite <- (endDate_carried w data ed Hed). destruct ed; reflexivity.
Qed.

Lemma recurrence_fields_are_spread_witness :
  let body :=
    JobPostingScreen.jobData Sample.office (Sample.draft "35")
      "2025-03-01T00:00:00.000Z" VUndefined in
  body !! "recurring_pattern" = Some (VStr "weekly") /\
  body !! "recurring_days" = Some (VArr []) /\
  carries body "recurring_end_date" = false.
Proof.
  destruct (recurrence_fields_are_spread Sample.office (Sample.draft "35")
              (Sample.browsing Sample.host) "2025-03-01T00:00:00.000Z" VUndefined
              eq_refl eq_refl eq_refl)
    as (_ & Hpattern & Hdays & Hend).
  split; [exact Hpattern | split; [exact Hdays | exact Hend]].
Defined.

(** C2 fails on the code. A client who fills the required fields only,
    leaving the recurrence switch off, posts a body that carries
    recurring_pattern ("weekly") and recurring_days (the empty array);
    a client who picked Monday and then chose the monthly pattern posts
    the weekday set along with "monthly". *)
Lemma recurrence_sent_ungated :
  (ReactHookForm.truthy (Sample.draft "35" !! "is_recurring") = false /\
   exists body,
     PostingFlow.bodies (log (Sample.afterPosting "35")) = [body] /\
     carries body "recurring_pattern" = true /\
     carries body "recurring_days" = true) /\
  (Sample.monthlyDraft !! "recurring_pattern" = Some (ReactHookForm.FText "monthly") /\
   exists body,
     PostingFlow.bodies
       (log (exec (JobPostingScreen.submit Sample.office Sample.monthlyDraft)
               (Sample.browsing Sample.host))) = [body] /\
     body !! "recurring_days" = Some (VArr [VStr "monday"])).
Proof.
  split; (split; [reflexivity|]); eexists; (split; [reflexivity|]);
    vm_compute; auto.
Qed.

(** The recurrence switch has no influence on the body apart from its
    own key. *)
Lemma jobData_ignores_is_recurring user data jd ed (b : bool) (k : string) :
  k <> "is_recurring" ->
  JobPostingScreen.jobData user (<["is_recurring" := ReactHookForm.FBool b]> data) jd ed !! k
  = JobPostingScreen.jobData user data jd ed !! k.
Proof.
  intros Hk. unfold JobPostingScreen.jobData.
  assert (Hrate : <["is_recurring" := ReactHookForm.FBool b]> data !! "hourly_rate"
                  = data !! "hourly_rate")
    by (apply lookup_insert_ne; discriminate).
  rewrite Hrate, !lookup_insert.
  repeat case_decide; try reflexivity.
  rewrite !lookup_fmap, lookup_insert_ne by congruence. reflexivity.
Qed.

(** ** The hourly rate *)

Example parseFloat_integer : JsNumber.parseFloat "35" = JsNumber.Dec false 35 0.
Proof. reflexivity. Qed.

Example parseFloat_decimal : JsNumber.parseFloat " 42.50" = JsNumber.Dec false 4250 (-2).
Proof. reflexivity. Qed.

Example parseFloat_exponent : JsNumber.parseFloat "1.5e3" = JsNumber.Dec false 15 2.
Proof. reflexivity. Qed.

Example parseFloat_prefix : JsNumber.parseFloat "12abc" = JsNumber.Dec false 12 0.
Proof. reflexivity. Qed.

Example parseFloat_negative : JsNumber.parseFloat "-5" = JsNumber.Dec true 5 0.
Proof. reflexivity. Qed.

Example parseFloat_letters : JsNumber.parseFloat "abc" = JsNumber.NaN.
Proof. reflexivity. Qed.

Example parseFloat_dot : JsNumber.parseFloat "." = JsNumber.NaN.
Proof. reflexivity. Qed.

Example parseInt_hex : JsNumber.parseInt "0x1f" = JsNumber.Dec false 31 0.
Proof. reflexivity. Qed.

Example parseInt_years : JsNumber.parseInt "7 years" = JsNumber.Dec false 7 0.
Proof. reflexivity. Qed.

Lemma required_rate_blocks data :
  ReactHookForm.isEmpty (data !! "hourly_rate") = true ->
  ReactHookForm.validate JobPostingScreen.rules data <> [].
Proof.
  intros Hempty Hnil. rewrite validate_nil_iff in Hnil.
  specialize (Hnil ("hourly_rate", "Hourly rate is required")).
  cbn -[lookup] in Hnil. rewrite Hempty in Hnil.
  assert (true = false) by (apply Hnil; auto 10). discriminate.
Qed.

(** C3, as the code has it. A submission that passes the required
    rules and reaches the POST carries as hourly_rate whatever
    parseFloat makes of the text, NaN included: nothing is checked on
    the outcome of the parse. The only check on the rate is the required
    rule, and a submission it stops issues no request. *)
Theorem hourly_rate_is_parseFloat
    (user : JobPostingScreen.User) (data : gmap string ReactHookForm.FieldValue)
    (w : World) (jd : string) (ed : value) :
  (ReactHookForm.validate JobPostingScreen.rules data = [] ->
   storageFault (host w) (log w ++ [EGetItem "access_token"]) = false ->
   PostingFlow.iso w (data !! "job_date") = Some jd ->
   PostingFlow.endDate w data = Some ed ->
   (exists rest,
      log (exec (JobPostingScreen.submit user data) w) =
      PostingFlow.posted user data jd ed w ++ rest) /\
   JobPostingScreen.jobData user data jd ed !! "hourly_rate" =
   Some (VNum (JsNumber.parseFloat (ReactHookForm.toString (data !! "hourly_rate"))))) /\
  (ReactHookForm.isEmpty (data !! "hourly_rate") = true ->
   requests (log (exec (JobPostingScreen.submit user data) w)) = requests (log w)).
Proof.
  split.
  - intros Hvalid Hdisk Hjd Hed. unfold JobPostingScreen.submit.
    rewrite (handleSubmit_valid _ _ _ Hvalid).
    split; [exact (posting_reaches_post user data w jd ed Hdisk Hjd Hed)|].
    unfold JobPostingScreen.jobData.
    rewrite !lookup_insert_ne by discriminate. apply lookup_insert_eq.
  - intros Hempty. unfold JobPostingScreen.submit, exec.
    rewrite handleSubmit_invalid by (apply required_rate_blocks, Hempty).
    cbn. rewrite requests_app. cbn. apply app_nil_r.
Qed.

Lemma hourly_rate_is_parseFloat_witness :
  (exists rest,
     log (Sample.afterPosting "42.50") =
     PostingFlow.posted Sample.office (Sample.draft "42.50")
       "2025-03-01T00:00:00.000Z" VUndefined (Sample.browsing Sample.host) ++ rest) /\
  JobPostingScreen.jobData Sample.office (Sample.draft "42.50")
    "2025-03-01T00:00:00.000Z" VUndefined !! "hourly_rate" =
  Some (VNum (JsNumber.Dec false 4250 (-2))) /\
  requests (log (Sample.afterPosting "")) = [].
Proof.
  destruct (hourly_rate_is_parseFloat Sample.office (Sample.draft "42.50")
              (Sample.browsing Sample.host) "2025-03-01T00:00:00.000Z" VUndefined)
    as [Hposted _].
  destruct (Hposted eq_refl eq_refl eq_refl eq_refl) as [Hlog Hrate].
  destruct (hourly_rate_is_parseFloat Sample.office (Sample.draft "")
              (Sample.browsing Sample.host) "2025-03-01T00:00:00.000Z" VUndefined)
    as [_ Hblocked].
  split; [exact Hlog | split; [exact Hrate | exact (Hblocked eq_refl)]].
Defined.

(** C3 fails on the code. With "abc" in the hourly-rate input the parse
    fails, the required rules are all satisfied, and the job is posted
    with hourly_rate NaN; "12abc" is posted as 12 and "-5" as a negative
    rate. *)
Lemma unparsable_rate_is_posted :
  (JsNumber.parseFloat "abc" = JsNumber.NaN /\
   ReactHookForm.validate JobPostingScreen.rules (Sample.draft "abc") = [] /\
   exists body,
     PostingFlow.bodies (log (Sample.afterPosting "abc")) = [body] /\
     body !! "hourly_rate" = Some (VNum JsNumber.NaN)) /\
  (exists body,
     PostingFlow.bodies (log (Sample.afterPosting "12abc")) = [body] /\
     body !! "hourly_rate" = Some (VNum (JsNumber.Dec false 12 0))) /\
  (exists body,
     PostingFlow.bodies (log (Sample.afterPosting "-5")) = [body] /\
     body !! "hourly_rate" = Some (VNum (JsNumber.Dec true 5 0))).
Proof.
  split; [split; [reflexivity | split; [reflexivity|]] | split];
    eexists; (split; [reflexivity|]); vm_compute; reflexivity.
Qed.

(** A lone dot, which the numeric keypad can produce, is posted as NaN
    too. *)
Example dot_rate_is_posted :
  exists body,
    PostingFlow.bodies (log (Sample.afterPosting ".")) = [body] /\
    body !! "hourly_rate" = Some (VNum JsNumber.NaN).
Proof. eexists. split; [reflexivity|]. vm_compute. reflexivity. Qed.

(** ** More on the job filter *)

Lemma List_filter_filter_and {A} (p q : A -> bool) (l : list A) :
  List.filter q (List.filter p l) = List.filter (fun x => p x && q x) l.
Proof.
  induction l as [|x l IH]; simpl; [reflexivity|].
  destruct (p x); simpl; [destruct (q x)|]; congruence.
Qed.

Lemma toLowerCaseAscii_truthy (s : string) :
  JsString.truthy (JsString.toLowerCaseAscii s) = JsString.truthy s.
Proof. destruct s; reflexivity. Qed.

(** X1. A job is in the filtered list exactly when it is in the job
    list and satisfies the text predicate and the category predicate:
    the filter drops nothing that matches. *)
Theorem filterJobs_exact
    (toLowerCase : string -> string) (J : list Api.Job) (t c : string)
    (job : Api.Job) :
  In job (JobsScreen.filterJobs toLowerCase J t c) <->
  In job J /\
  JobsScreen.textPredicate toLowerCase t job /\
  JobsScreen.categoryPredicate c job.
Proof.
  split.
  - intros Hin. apply filterJobs_In in Hin as (HJ & Ht & Hc).
    split; [exact HJ|]. split.
    + destruct Ht as [Ht | Ht];
        [left; apply truthy_false_iff, Ht | apply searchMatch_textPredicate, Ht].
    + destruct Hc as [Hc | Hc];
        [left; apply truthy_false_iff, Hc | apply typeMatch_categoryPredicate, Hc].
  - intros (HJ & Ht & Hc). apply filterJobs_complete; assumption.
Qed.

Lemma filterJobs_exact_witness :
  In Sample.frontDeskPM
    (JobsScreen.filterJobs JsString.toLowerCaseAscii
       [Sample.hygienistAM; Sample.frontDeskPM] "desk" "front_desk").
Proof.
  apply (proj2 (filterJobs_exact JsString.toLowerCaseAscii
                  [Sample.hygienistAM; Sample.frontDeskPM] "desk" "front_desk"
                  Sample.frontDeskPM)).
  split; [right; left; reflexivity|].
  split; [right; left; reflexivity | right; reflexivity].
Defined.

(** X2. Filtering distributes over concatenation: a job list fetched in
    two parts filters to the concatenation of the filtered parts. *)
Theorem filterJobs_app
    (toLowerCase : string -> string) (J1 J2 : list Api.Job) (t c : string) :
  JobsScreen.filterJobs toLowerCase (J1 ++ J2) t c =
  JobsScreen.filterJobs toLowerCase J1 t c ++
  JobsScreen.filterJobs toLowerCase J2 t c.
Proof. rewrite !filterJobs_one_pass. apply List.filter_app. Qed.

(** X3. Filtering is idempotent: filtering the filtered list again with
    the same text and category changes nothing. *)
Theorem filterJobs_idempotent
    (toLowerCase : string -> string) (J : list Api.Job) (t c : string) :
  JobsScreen.filterJobs toLowerCase (JobsScreen.filterJobs toLowerCase J t c) t c
  = JobsScreen.filterJobs toLowerCase J t c.
Proof.
  rewrite !filterJobs_one_pass, List_filter_filter_and.
  apply List.filter_ext. intros job. apply andb_diag.
Qed.

(** X4. The two filters are independent: applying the text filter and
    the category filter one after the other, in either order, gives the
    list that applying both at once gives. *)
Theorem filterJobs_separate
    (toLowerCase : string -> string) (J : list Api.Job) (t c : string) :
  JobsScreen.filterJobs toLowerCase (JobsScreen.filterJobs toLowerCase J t "") "" c
  = JobsScreen.filterJobs toLowerCase J t c /\
  JobsScreen.filterJobs toLowerCase (JobsScreen.filterJobs toLowerCase J "" c) t ""
  = JobsScreen.filterJobs toLowerCase J t c.
Proof.
  rewrite !filterJobs_one_pass, !List_filter_filter_and.
  split; apply List.filter_ext; intros job; cbn;
    rewrite ?andb_true_r; [reflexivity | apply andb_comm].
Qed.

(** X5. With the ASCII lowering, two search texts that differ in case
    only select the same jobs. *)
Theorem filterJobs_case_insensitive (J : list Api.Job) (t1 t2 c : string) :
  JsString.toLowerCaseAscii t1 = JsString.toLowerCaseAscii t2 ->
  JobsScreen.filterJobs JsString.toLowerCaseAscii J t1 c =
  JobsScreen.filterJobs JsString.toLowerCaseAscii J t2 c.
Proof.
  intros Hcase. rewrite !filterJobs_one_pass.
  rewrite <- (toLowerCaseAscii_truthy t1), <- (toLowerCaseAscii_truthy t2), Hcase.
  apply List.filter_ext. intros job.
  unfold JobsScreen.searchMatch. rewrite Hcase. reflexivity.
Qed.

Lemma filterJobs_case_insensitive_witness :
  JobsScreen.filterJobs JsString.toLowerCaseAscii
    [Sample.hygienistAM; Sample.frontDeskPM] "DeSk" "" =
  JobsScreen.filterJobs JsString.toLowerCaseAscii
    [Sample.hygienistAM; Sample.frontDeskPM] "desk" "".
Proof.
  exact (filterJobs_case_insensitive [Sample.hygienistAM; Sample.frontDeskPM]
           "DeSk" "desk" "" eq_refl).
Defined.

(** ** Display names: formatJobType and the profile line *)

Lemma upper_ascii_word (c : ascii) :
  JsString.isWordChar (JsString.upper_ascii c) = JsString.isWordChar c.
Proof. destruct c as [[] [] [] [] [] [] [] []]; reflexivity. Qed.

Lemma upper_ascii_idem (c : ascii) :
  JsString.upper_ascii (JsString.upper_ascii c) = JsString.upper_ascii c.
Proof. destruct c as [[] [] [] [] [] [] [] []]; reflexivity. Qed.

Lemma upper_ascii_underscore (c : ascii) :
  Ascii.eqb (JsString.upper_ascii c) "_" = Ascii.eqb c "_".
Proof. destruct c as [[] [] [] [] [] [] [] []]; reflexivity. Qed.

Lemma capitalizeWords_length (b : bool) (s : string) :
  String.length (JsString.capitalizeWords b s) = String.length s.
Proof. revert b; induction s as [|c s IH]; intros b; simpl; [|rewrite IH]; reflexivity. Qed.

Lemma capitalizeWords_underscores (b : bool) (s : string) :
  JsString.underscores (JsString.capitalizeWords b s) = JsString.underscores s.
Proof.
  revert b; induction s as [|c s IH]; intros b; simpl; [reflexivity|].
  rewrite IH. destruct (JsString.isWordChar c && negb b);
    [rewrite upper_ascii_underscore|]; reflexivity.
Qed.

Lemma capitalizeWords_idem (b : bool) (s : string) :
  JsString.capitalizeWords b (JsString.capitalizeWords b s)
  = JsString.capitalizeWords b s.
Proof.
  revert b; induction s as [|c s IH]; intros b; simpl; [reflexivity|].
  destruct (JsString.isWordChar c && negb b) eqn:Hcap.
  - rewrite upper_ascii_word, Hcap, upper_ascii_idem, IH. reflexivity.
  - rewrite Hcap, IH. reflexivity.
Qed.

Lemma replaceUnderscores_length (s : string) :
  String.length (JsString.replaceUnderscores s) = String.length s.
Proof. induction s as [|c s IH]; simpl; [|rewrite IH]; reflexivity. Qed.

Lemma replaceUnderscores_underscores (s : string) :
  JsString.underscores (JsString.replaceUnderscores s) = 0.
Proof.
  induction s as [|c s IH]; simpl; [reflexivity|].
  rewrite IH. destruct (Ascii.eqb c "_") eqn:Hc; [reflexivity|].
  rewrite Hc. reflexivity.
Qed.

Lemma replaceUnderscores_none (s : string) :
  JsString.underscores s = 0 -> JsString.replaceUnderscores s = s.
Proof.
  induction s as [|c s IH]; simpl; [reflexivity|].
  destruct (Ascii.eqb c "_"); [discriminate|]. intros H. rewrite IH by exact H.
  reflexivity.
Qed.

Lemma replaceFirstUnderscore_underscores (s : string) :
  JsString.underscores (JsString.replaceFirstUnderscore s)
  = Nat.pred (JsString.underscores s).
Proof.
  induction s as [|c s IH]; simpl; [reflexivity|].
  destruct (Ascii.eqb c "_") eqn:Hc; simpl; [reflexivity|].
  rewrite Hc. exact IH.
Qed.

Lemma replaceFirstUnderscore_all (s : string) :
  JsString.underscores s <= 1 ->
  JsString.replaceFirstUnderscore s = JsString.replaceUnderscores s.
Proof.
  induction s as [|c s IH]; simpl; [reflexivity|].
  destruct (Ascii.eqb c "_"); simpl; intros H.
  - rewrite replaceUnderscores_none by lia. reflexivity.
  - rewrite IH by exact H. reflexivity.
Qed.

(** X6. [formatJobType] keeps the length of its argument and leaves no
    underscore in the result. *)
Theorem formatJobType_shape (jobType : string) :
  String.length (JobsScreen.formatJobType jobType) = String.length jobType /\
  JsString.underscores (JobsScreen.formatJobType jobType) = 0.
Proof.
  unfold JobsScreen.formatJobType. split.
  - rewrite capitalizeWords_length. apply replaceUnderscores_length.
  - rewrite capitalizeWords_underscores. apply replaceUnderscores_underscores.
Qed.

(** X7. [formatJobType] is idempotent: a formatted name formats to
    itself. *)
Theorem formatJobType_idempotent (jobType : string) :
  JobsScreen.formatJobType (JobsScreen.formatJobType jobType)
  = JobsScreen.formatJobType jobType.
Proof.
  unfold JobsScreen.formatJobType.
  rewrite (replaceUnderscores_none (JsString.capitalizeWords false _)).
  - apply capitalizeWords_idem.
  - rewrite capitalizeWords_underscores. apply replaceUnderscores_underscores.
Qed.

(** X8. The text a job card shows for a job type is the label of the
    filter chip of that type, for every chip but the "all" chip. *)
Theorem formatJobType_matches_chips (v label : string) :
  In (v, label) JobsScreen.jobTypes ->
  v <> "" ->
  JobsScreen.formatJobType v = label.
Proof.
  intros Hin Hv. cbn in Hin.
  repeat (destruct Hin as [[= <- <-] | Hin]; [try reflexivity; congruence|]).
  destruct Hin.
Qed.

Lemma formatJobType_matches_chips_witness :
  JobsScreen.formatJobType "dental_hygienist" = "Dental Hygienist".
Proof.
  apply (formatJobType_matches_chips "dental_hygienist" "Dental Hygienist").
  - simpl. auto.
  - discriminate.
Defined.

(** X9. The profession line of the profile tab replaces the first
    underscore only: it agrees with [formatJobType] exactly on the names
    with at most one underscore. *)
Theorem formatProfession_agrees (name : string) :
  DashboardScreen.formatProfession name = JobsScreen.formatJobType name <->
  JsString.underscores name <= 1.
Proof.
  unfold DashboardScreen.formatProfession, JobsScreen.formatJobType. split.
  - intros Heq. apply (f_equal JsString.underscores) in Heq.
    rewrite !capitalizeWords_underscores, replaceFirstUnderscore_underscores,
      replaceUnderscores_underscores in Heq.
    lia.
  - intros Hle. rewrite replaceFirstUnderscore_all by exact Hle. reflexivity.
Qed.

Lemma formatProfession_agrees_witness :
  DashboardScreen.formatProfession "front_desk" = JobsScreen.formatJobType "front_desk".
Proof.
  apply (proj2 (formatProfession_agrees "front_desk")). cbn. lia.
Defined.

Example formatProfession_two_underscores :
  DashboardScreen.formatProfession "oral_surgery_assistant" = "Oral Surgery_assistant" /\
  JobsScreen.formatJobType "oral_surgery_assistant" = "Oral Surgery Assistant".
Proof. split; reflexivity. Qed.

(** ** DashboardScreen: tabs *)

Lemma tabs_render (role : string) (entry : DashboardScreen.Tab * string) :
  In entry (DashboardScreen.tabs role) ->
  DashboardScreen.renderTabContent role (fst entry) <> DashboardScreen.Nothing.
Proof.
  unfold DashboardScreen.tabs, DashboardScreen.renderTabContent.
  destruct (String.eqb role "client") eqn:Hrole; cbn; intros Hin;
    repeat (destruct Hin as [<- | Hin]; [cbn; rewrite ?Hrole; discriminate|]);
    destruct Hin.
Qed.

(** X10. Every tab a user can reach through the tab bar renders a
    screen (never the null content), and the job posting form is
    rendered for clients only; the tab bar offers the Post tab exactly
    to clients. *)
Theorem dashboard_tabs_sound (role : string) (activeTab : DashboardScreen.Tab) :
  (DashboardScreen.reachable role activeTab ->
   DashboardScreen.renderTabContent role activeTab <> DashboardScreen.Nothing) /\
  (DashboardScreen.renderTabContent role activeTab = DashboardScreen.JobPostingView ->
   role = "client") /\
  (In DashboardScreen.post (List.map fst (DashboardScreen.tabs role)) <->
   role = "client").
Proof.
  split; [|split].
  - intros Hreach. destruct Hreach as [|t entry _ Hin].
    + discriminate.
    + apply tabs_render, Hin.
  - unfold DashboardScreen.renderTabContent. destruct activeTab; try discriminate.
    destruct (String.eqb role "client") eqn:Hrole; [|discriminate].
    intros _. apply String.eqb_eq, Hrole.
  - unfold DashboardScreen.tabs. rewrite <- String.eqb_eq.
    destruct (String.eqb role "client"); cbn; split; auto.
    + intros [H | [H | [H | []]]]; discriminate.
    + discriminate.
Qed.

Lemma dashboard_tabs_sound_witness :
  DashboardScreen.renderTabContent "professional" DashboardScreen.applications
  <> DashboardScreen.Nothing.
Proof.
  apply (dashboard_tabs_sound "professional" DashboardScreen.applications).
  apply (DashboardScreen.reachable_press "professional" DashboardScreen.jobs
           (DashboardScreen.applications, "Applications")).
  - apply DashboardScreen.reachable_initial.
  - simpl. auto.
Defined.

(** ** ApplicationsScreen: the status badge *)

(** X11. The badge colour tells the three known statuses apart: two
    statuses with the same colour are equal or both unknown, and the
    neutral colour is the colour of the unknown statuses only. *)
Theorem getStatusColor_separates (s1 s2 : string) :
  (ApplicationsScreen.getStatusColor s1 = ApplicationsScreen.getStatusColor s2 ->
   s1 = s2 \/
   (ApplicationsScreen.getStatusColor s1 = "#666" /\
    ApplicationsScreen.getStatusColor s2 = "#666")) /\
  (ApplicationsScreen.getStatusColor s1 = "#666" <->
   s1 <> "pending" /\ s1 <> "accepted" /\ s1 <> "rejected").
Proof.
  unfold ApplicationsScreen.getStatusColor.
  destruct (String.eqb_spec s1 "pending") as [-> | H1];
    [| destruct (String.eqb_spec s1 "accepted") as [-> | H2];
       [| destruct (String.eqb_spec s1 "rejected") as [-> | H3]]];
  (split;
   [ destruct (String.eqb_spec s2 "pending") as [-> | G1];
     [| destruct (String.eqb_spec s2 "accepted") as [-> | G2];
        [| destruct (String.eqb_spec s2 "rejected") as [-> | G3]]];
     intros Heq; first [ left; reflexivity | right; split; reflexivity | discriminate Heq ]
   | split; [ intros Heq; first [discriminate Heq | auto] | intros (? & ? & ?); first [reflexivity | congruence] ] ]).
Qed.

Lemma getStatusColor_separates_witness :
  "cancelled" = "withdrawn" \/
  (ApplicationsScreen.getStatusColor "cancelled" = "#666" /\
   ApplicationsScreen.getStatusColor "withdrawn" = "#666").
Proof.
  apply (getStatusColor_separates "cancelled" "withdrawn"). reflexivity.
Defined.

(** ** JobPostingScreen: the weekday buttons *)

Lemma In_filter_neq (value : list string) (day d : string) :
  In d (List.filter (fun d' => negb (String.eqb d' day)) value) <->
  In d value /\ d <> day.
Proof.
  rewrite List.filter_In, negb_true_iff, String.eqb_neq. reflexivity.
Qed.

(** X12. Pressing a weekday button flips the membership of that day in
    the selection and leaves the membership of every other day as it
    was. *)
Theorem toggleDay_membership (value : list string) (day d : string) :
  In d (JobPostingScreen.toggleDay value day) <->
  (d = day /\ ~ In day value) \/ (d <> day /\ In d value).
Proof.
  unfold JobPostingScreen.toggleDay. case_bool_decide as Hin.
  - apply list_elem_of_In in Hin. rewrite In_filter_neq. tauto.
  - rewrite list_elem_of_In in Hin. rewrite List.in_app_iff. cbn.
    destruct (decide (d = day)) as [-> | Hne]; [tauto|].
    split; [intros [H | [H | []]]; [tauto | congruence] | tauto].
Qed.

Lemma toggleDay_membership_witness :
  In "friday" (JobPostingScreen.toggleDay ["monday"] "friday").
Proof.
  apply (proj2 (toggleDay_membership ["monday"] "friday" "friday")).
  left. split; [reflexivity|]. cbn. intros [H | []]. discriminate H.
Defined.

(** X13. A selection without repetitions stays without repetitions, and
    pressing the button of a day that is not selected twice gives back
    the selection as it was: starting from the empty default, the
    selection never lists a day twice. *)
Theorem toggleDay_NoDup (value : list string) (day : string) :
  (List.NoDup value -> List.NoDup (JobPostingScreen.toggleDay value day)) /\
  (~ In day value ->
   JobPostingScreen.toggleDay (JobPostingScreen.toggleDay value day) day = value).
Proof.
  split.
  - intros Hnd. unfold JobPostingScreen.toggleDay. case_bool_decide as Hin.
    + apply List.NoDup_filter, Hnd.
    + rewrite list_elem_of_In in Hin.
      apply List.NoDup_app; [exact Hnd | repeat constructor; intros [] |].
      intros x Hx [<- | []]. exact (Hin Hx).
  - intros Hout. unfold JobPostingScreen.toggleDay at 2.
    rewrite bool_decide_eq_false_2 by (rewrite list_elem_of_In; exact Hout).
    unfold JobPostingScreen.toggleDay.
    rewrite bool_decide_eq_true_2
      by (apply list_elem_of_In, List.in_or_app; right; left; reflexivity).
    rewrite List.filter_app. cbn. rewrite String.eqb_refl. cbn.
    rewrite app_nil_r. apply List.forallb_filter_id.
    apply List.forallb_forall. intros x Hx. apply negb_true_iff, String.eqb_neq.
    intros ->. exact (Hout Hx).
Qed.

Lemma toggleDay_NoDup_witness :
  List.NoDup (JobPostingScreen.toggleDay ["monday"; "friday"] "monday") /\
  JobPostingScreen.toggleDay (JobPostingScreen.toggleDay ["monday"] "friday") "friday"
  = ["monday"].
Proof.
  split.
  - apply (toggleDay_NoDup ["monday"; "friday"] "monday").
    repeat (apply List.NoDup_cons; [cbn; intuition discriminate|]).
    apply List.NoDup_nil.
  - apply (toggleDay_NoDup ["monday"] "friday").
    cbn. intros [H | []]. discriminate H.
Defined.

(** ** Index: signing in, signing out, restarting *)

Lemma last_suffix {A} (l suffix : list A) (d : A) :
  suffix <> [] -> List.last (l ++ suffix) d = List.last suffix d.
Proof.
  intros Hne. induction l as [|x l IH]; [reflexivity|].
  cbn [app]. rewrite <- IH. destruct (l ++ suffix) eqn:Happ; [|reflexivity].
  apply app_eq_nil in Happ as [_ ->]. congruence.
Qed.

(** X14. [handleLogout] always completes; it turns isAuthenticated off
    only after both stored keys are deleted (and then clears the user),
    so a sign-out whose deletion fails leaves the session flags as they
    were. *)
Theorem handleLogout_deletes_first (w : World) :
  fst (Index.handleLogout w) = Ret tt /\
  (isAuthenticated w = true ->
   isAuthenticated (exec Index.handleLogout w) = false ->
   storage (exec Index.handleLogout w) !! "access_token" = None /\
   storage (exec Index.handleLogout w) !! "user_data" = None /\
   user (exec Index.handleLogout w) = None) /\
  (SessionFlow.reliable w ->
   isAuthenticated (exec Index.handleLogout w) = false /\
   user (exec Index.handleLogout w) = None /\
   storage (exec Index.handleLogout w)
   = delete "user_data" (delete "access_token" (storage w))).
Proof.
  unfold SessionFlow.reliable, exec, Index.handleLogout, Index.setUser,
    Index.setIsAuthenticated.
  run.
  destruct (storageFault (host w) (log w ++ [ERemoveItem "access_token"])) eqn:H1; run.
  { repeat split; try reflexivity; intros; try congruence.
    all: rewrite H in H1; discriminate. }
  destruct (storageFault (host w)
              ((log w ++ [ERemoveItem "access_token"]) ++ [ERemoveItem "user_data"]))
    eqn:H2; run.
  { repeat split; try reflexivity; intros; try congruence.
    all: rewrite H in H2; discriminate. }
  repeat split; try reflexivity; intros;
    first [ apply lookup_delete_eq
          | rewrite lookup_delete_ne by discriminate; apply lookup_delete_eq ].
Qed.

Lemma handleLogout_deletes_first_witness :
  isAuthenticated (exec Index.handleLogout (Sample.signedIn Sample.host)) = false /\
  storage (exec Index.handleLogout (Sample.signedIn Sample.host)) !! "access_token"
  = None.
Proof.
  destruct (handleLogout_deletes_first (Sample.signedIn Sample.host))
    as (_ & Hfirst & Hreliable).
  destruct Hreliable as (Hauth & _ & _); [intros history; reflexivity|].
  destruct (Hfirst eq_refl Hauth) as (Htoken & _ & _).
  split; [exact Hauth | exact Htoken].
Defined.

(** When the second deletion fails the token is gone but the user is
    still shown as signed in. *)
Example handleLogout_half_done :
  storage (exec Index.handleLogout (Sample.signedIn Sample.hostStuckProfile))
  !! "access_token" = None /\
  storage (exec Index.handleLogout (Sample.signedIn Sample.hostStuckProfile))
  !! "user_data" = Some "{}" /\
  isAuthenticated (exec Index.handleLogout (Sample.signedIn Sample.hostStuckProfile))
  = true.
Proof. vm_compute. auto. Qed.

(** X15. [handleLogin] always completes; it turns isAuthenticated on
    only after the token and the serialised profile are stored, and a
    login that does not establish the session ends with the alert
    "Failed to save login information". *)
Theorem handleLogin_stores_first (token : string) (userData : value) (w : World) :
  fst (Index.handleLogin token userData w) = Ret tt /\
  (isAuthenticated w = false ->
   isAuthenticated (exec (Index.handleLogin token userData) w) = true ->
   storage (exec (Index.handleLogin token userData) w) !! "access_token" = Some token /\
   storage (exec (Index.handleLogin token userData) w) !! "user_data"
   = Some (JSON_stringify (host w) userData) /\
   user (exec (Index.handleLogin token userData) w) = Some userData) /\
  (isAuthenticated w = false ->
   isAuthenticated (exec (Index.handleLogin token userData) w) = false ->
   List.last (log (exec (Index.handleLogin token userData) w)) EFormReset
   = SessionFlow.notSaved).
Proof.
  unfold exec, Index.handleLogin, Index.setUser, Index.setIsAuthenticated,
    SessionFlow.notSaved.
  run.
  destruct (storageFault (host w) (log w ++ [ESetItem "access_token" token])); run.
  { repeat split; try reflexivity; intros; try congruence.
    rewrite <- !app_assoc. cbn [app]. rewrite last_suffix by discriminate.
    reflexivity. }
  destruct (storageFault (host w) _); run.
  { repeat split; try reflexivity; intros; try congruence.
    rewrite <- !app_assoc. cbn [app]. rewrite last_suffix by discriminate.
    reflexivity. }
  repeat split; try reflexivity; intros; try congruence;
    first [ apply lookup_insert_eq
          | rewrite lookup_insert_ne by discriminate; apply lookup_insert_eq ].
Qed.

Lemma handleLogin_stores_first_witness :
  storage (exec (Index.handleLogin "t0k3n" (VObj ∅)) (Sample.coldStart Sample.host))
  !! "access_token" = Some "t0k3n" /\
  user (exec (Index.handleLogin "t0k3n" (VObj ∅)) (Sample.coldStart Sample.host))
  = Some (VObj ∅).
Proof.
  destruct (handleLogin_stores_first "t0k3n" (VObj ∅) (Sample.coldStart Sample.host))
    as (_ & Hstored & _).
  destruct (Hstored eq_refl eq_refl) as (Htoken & _ & Huser).
  split; [exact Htoken | exact Huser].
Defined.

Lemma handleLogin_reliable (token : string) (userData : value) (w : World) :
  SessionFlow.reliable w ->
  Index.handleLogin token userData w =
  (Ret tt,
   withIsAuthenticated true
     (withUser (Some userData)
        (withStorage
           (<["user_data" := JSON_stringify (host w) userData]>
              (<["access_token" := token]> (storage w)))
           (withLog (log w ++
                     [ESetItem "access_token" token;
                      ESetItem "user_data" (JSON_stringify (host w) userData)]) w)))).
Proof.
  intros Hdisk. unfold Index.handleLogin, Index.setUser, Index.setIsAuthenticated.
  run. rewrite !Hdisk. run. rewrite <- !app_assoc. reflexivity.
Qed.

Lemma handleLogout_reliable (w : World) :
  SessionFlow.reliable w ->
  Index.handleLogout w =
  (Ret tt,
   withIsAuthenticated false
     (withUser None
        (withStorage (delete "user_data" (delete "access_token" (storage w)))
           (withLog (log w ++
                     [ERemoveItem "access_token"; ERemoveItem "user_data"]) w)))).
Proof.
  intros Hdisk. unfold Index.handleLogout, Index.setUser, Index.setIsAuthenticated.
  run. rewrite !Hdisk. run. rewrite <- !app_assoc. reflexivity.
Qed.

Lemma checkAuthStatus_loading (w : World) :
  loading (exec Index.checkAuthStatus w) = false.
Proof.
  unfold exec, Index.checkAuthStatus, Index.parse, Index.setUser,
    Index.setIsAuthenticated, Index.setLoading.
  run.
  destruct (storageFault (host w) (log w ++ [EGetItem "access_token"])); run;
    [reflexivity|].
  destruct (storageFault (host w) _); run; [reflexivity|].
  destruct (storage w !! "access_token"); run; [|reflexivity].
  destruct (storage w !! "user_data"); run; [|reflexivity].
  destruct (JsString.truthy _ && JsString.truthy _); run; [|reflexivity].
  destruct (JSON_parse (host w) _); run; reflexivity.
Qed.

Lemma checkAuthStatus_no_token (w : World) :
  storage w !! "access_token" = None ->
  isAuthenticated (exec Index.checkAuthStatus w) = isAuthenticated w /\
  user (exec Index.checkAuthStatus w) = user w.
Proof.
  intros Htoken.
  unfold exec, Index.checkAuthStatus, Index.parse, Index.setUser,
    Index.setIsAuthenticated, Index.setLoading.
  run.
  destruct (storageFault (host w) (log w ++ [EGetItem "access_token"])); run;
    [split; reflexivity|].
  destruct (storageFault (host w) _); run; [split; reflexivity|].
  rewrite Htoken. run. split; reflexivity.
Qed.

(** X16. A login survives a restart: after [handleLogin] on a working
    device, a new process that runs [checkAuthStatus] is authenticated
    again, with the profile that parsing the stored text gives, provided
    the token and the serialised profile are non-empty. *)
Theorem login_survives_restart
    (token : string) (userData restored : value) (w : World) :
  SessionFlow.reliable w ->
  JsString.truthy token = true ->
  JsString.truthy (JSON_stringify (host w) userData) = true ->
  JSON_parse (host w) (JSON_stringify (host w) userData) = Some restored ->
  isAuthenticated
    (exec Index.checkAuthStatus
       (Index.restart (exec (Index.handleLogin token userData) w))) = true /\
  user
    (exec Index.checkAuthStatus
       (Index.restart (exec (Index.handleLogin token userData) w))) = Some restored /\
  loading
    (exec Index.checkAuthStatus
       (Index.restart (exec (Index.handleLogin token userData) w))) = false.
Proof.
  intros Hdisk Htoken Htext Hparse.
  split; [|split; [|apply checkAuthStatus_loading]].
  all: unfold exec at 2; rewrite (handleLogin_reliable token userData w Hdisk);
    cbn [snd];
    apply (checkAuthStatus_restores _ token (JSON_stringify (host w) userData) restored);
    try solve [apply Hdisk | exact Htoken | exact Htext | exact Hparse].
  all: cbn -[insert lookup];
    first [ rewrite lookup_insert_ne by discriminate; apply lookup_insert_eq
          | apply lookup_insert_eq ].
Qed.

Lemma login_survives_restart_witness :
  isAuthenticated
    (exec Index.checkAuthStatus
       (Index.restart (exec (Index.handleLogin "t0k3n" (VObj ∅))
                         (Sample.coldStart Sample.host)))) = true.
Proof.
  assert (Hdisk : SessionFlow.reliable (Sample.coldStart Sample.host))
    by (intros history; reflexivity).
  destruct (login_survives_restart "t0k3n" (VObj ∅) (VObj ∅)
              (Sample.coldStart Sample.host) Hdisk eq_refl eq_refl eq_refl)
    as (Hauth & _ & _).
  exact Hauth.
Defined.

(** X17. Signing out undoes a login: after [handleLogin] and then
    [handleLogout] on a working device, the two keys are gone from the
    storage and a new process that runs [checkAuthStatus] stays
    unauthenticated and shows the auth screen. *)
Theorem logout_undoes_login (token : string) (userData : value) (w : World) :
  SessionFlow.reliable w ->
  storage (exec Index.handleLogout (exec (Index.handleLogin token userData) w))
  !! "access_token" = None /\
  storage (exec Index.handleLogout (exec (Index.handleLogin token userData) w))
  !! "user_data" = None /\
  Index.render
    (exec Index.checkAuthStatus
       (Index.restart
          (exec Index.handleLogout (exec (Index.handleLogin token userData) w))))
  = Index.Auth.
Proof.
  intros Hdisk.
  unfold exec at 2 4 7. rewrite (handleLogin_reliable token userData w Hdisk). cbn [snd].
  unfold exec at 1 2 4. rewrite handleLogout_reliable by exact Hdisk. cbn [snd].
  assert (Htoken : forall m : gmap string string,
             delete "user_data" (delete "access_token" m) !! "access_token" = None).
  { intros m. rewrite lookup_delete_ne by discriminate. apply lookup_delete_eq. }
  split; [|split].
  - cbn -[insert delete lookup]. apply Htoken.
  - cbn -[insert delete lookup]. apply lookup_delete_eq.
  - unfold Index.render. rewrite checkAuthStatus_loading.
    match goal with
    | |- context [exec Index.checkAuthStatus ?w0] =>
        destruct (checkAuthStatus_no_token w0) as [Hauth Huser];
        [cbn -[insert delete lookup]; apply Htoken | rewrite Huser]
    end.
    reflexivity.
Qed.

Lemma logout_undoes_login_witness :
  Index.render
    (exec Index.checkAuthStatus
       (Index.restart
          (exec Index.handleLogout
             (exec (Index.handleLogin "t0k3n" (VObj ∅)) (Sample.coldStart Sample.host)))))
  = Index.Auth.
Proof.
  assert (Hdisk : SessionFlow.reliable (Sample.coldStart Sample.host))
    by (intros history; reflexivity).
  destruct (logout_undoes_login "t0k3n" (VObj ∅) (Sample.coldStart Sample.host) Hdisk)
    as (_ & _ & Hrender).
  exact Hrender.
Defined.

(** X18. After [checkAuthStatus] the spinner is gone, and a process
    that started unauthenticated shows the dashboard only when both
    keys are stored and the stored profile parses to a truthy value. *)
Theorem render_after_check (w : World) :
  Index.render (exec Index.checkAuthStatus w) <> Index.LoadingView /\
  (isAuthenticated w = false ->
   forall u,
     Index.render (exec Index.checkAuthStatus w) = Index.Dashboard u ->
     exists token userData,
       storage w !! "access_token" = Some token /\
       storage w !! "user_data" = Some userData /\
       JSON_parse (host w) userData = Some u /\
       JsValue.truthy u = true).
Proof.
  split.
  - unfold Index.render. rewrite checkAuthStatus_loading.
    destruct (user _); [destruct (_ && _)|]; discriminate.
  - intros Hout u. unfold Index.render. rewrite checkAuthStatus_loading.
    unfold exec, Index.checkAuthStatus, Index.parse, Index.setUser,
      Index.setIsAuthenticated, Index.setLoading.
    run.
    assert (Hkeep : match user w with
                    | Some u0 =>
                        if isAuthenticated w && JsValue.truthy u0
                        then Index.Dashboard u0 else Index.Auth
                    | None => Index.Auth
                    end = Index.Dashboard u -> False).
    { rewrite Hout. destruct (user w); discriminate. }
    destruct (storageFault (host w) (log w ++ [EGetItem "access_token"])); run;
      [intros H; destruct (Hkeep H)|].
    destruct (storageFault (host w) _); run; [intros H; destruct (Hkeep H)|].
    destruct (storage w !! "access_token") as [token|]; run;
      [|intros H; destruct (Hkeep H)].
    destruct (storage w !! "user_data") as [userData|]; run;
      [|intros H; destruct (Hkeep H)].
    destruct (JsString.truthy token && JsString.truthy userData); run;
      [|intros H; destruct (Hkeep H)].
    destruct (JSON_parse (host w) userData) as [parsed|] eqn:Hparse; run;
      [|intros H; destruct (Hkeep H)].
    destruct (JsValue.truthy parsed) eqn:Htruthy; [|discriminate].
    intros [= <-]. exists token, userData. repeat split; assumption || reflexivity.
Qed.

Lemma render_after_check_witness :
  exists token userData,
    storage (Sample.bothStored Sample.host) !! "access_token" = Some token /\
    storage (Sample.bothStored Sample.host) !! "user_data" = Some userData /\
    JSON_parse (host (Sample.bothStored Sample.host)) userData = Some (VObj ∅) /\
    JsValue.truthy (VObj ∅) = true.
Proof.
  destruct (render_after_check (Sample.bothStored Sample.host)) as [_ Hdash].
  assert (Hshown : Index.render (exec Index.checkAuthStatus (Sample.bothStored Sample.host))
                   = Index.Dashboard (VObj ∅)) by (vm_compute; reflexivity).
  exact (Hdash eq_refl (VObj ∅) Hshown).
Defined.

(** A stored profile that parses to [null] sets the flag and still
    shows the auth screen. *)
Example null_profile_shows_auth :
  isAuthenticated (exec Index.checkAuthStatus (Sample.bothStored Sample.hostNullProfile))
  = true /\
  Index.render (exec Index.checkAuthStatus (Sample.bothStored Sample.hostNullProfile))
  = Index.Auth.
Proof. vm_compute. auto. Qed.

(** ** AuthScreen: more on the submission *)

Lemma handleLogin_quiet (token : string) (userData : value) (w0 : World) :
  exists w1 rest,
    Index.handleLogin token userData w0 = (Ret tt, w1) /\
    log w1 = log w0 ++ rest /\
    requests rest = [].
Proof.
  unfold Index.handleLogin, Index.setUser, Index.setIsAuthenticated. run.
  destruct (storageFault (host w0) (log w0 ++ [ESetItem "access_token" token])); run.
  - eexists _, _. split; [reflexivity|]. cbn. rewrite <- !app_assoc.
    split; reflexivity.
  - destruct (storageFault (host w0) _); run;
      eexists _, _; (split; [reflexivity|]); cbn -[insert]; rewrite <- ?app_assoc;
      split; reflexivity.
Qed.

(** X19. A submission of the auth screen always completes and sends at
    most two requests: nothing, or the POST alone, or the POST followed
    by the GET of the profile with the bearer token. *)
Theorem onSubmit_request_budget (data : gmap string string) (w : World) :
  fst (AuthScreen.onSubmit Index.handleLogin data w) = Ret tt /\
  exists new,
    log (exec (AuthScreen.onSubmit Index.handleLogin data) w) = log w ++ new /\
    (requests new = [] \/
     requests new = [AuthFlow.request data w] \/
     exists tok,
       requests new = [AuthFlow.request data w; AuthFlow.profileRequest tok w]).
Proof.
  unfold exec, AuthFlow.request, AuthFlow.profileRequest.
  destruct (isLogin w) eqn:Hmode;
    [| destruct (decide (data !! "password" = data !! "confirmPassword"))
         as [Heq | Hne]].
  3: { rewrite (onSubmit_mismatch _ Hmode Hne). cbn.
       split; [reflexivity|]. eexists. split; [reflexivity|]. left. reflexivity. }
  all: assert (Hpass : AuthFlow.passes data w)
    by (unfold AuthFlow.passes; rewrite ?Hmode; auto).
  all: destruct (authReply (host w) (AuthFlow.posted data w)) as [body|err] eqn:Hpost.
  2, 4: rewrite (onSubmit_post_rejected _ Hpass Hpost); cbn [fst snd log withLog withAuthLoading];
    (split; [reflexivity|]); unfold AuthFlow.posted; rewrite <- app_assoc;
    eexists; (split; [reflexivity|]); right; left; rewrite ?Hmode; reflexivity.
  all: destruct body as [|tok].
  1, 3: rewrite (onSubmit_no_data _ Hpass Hpost); cbn [fst snd log withLog withAuthLoading];
    (split; [reflexivity|]); unfold AuthFlow.posted; rewrite <- app_assoc;
    eexists; (split; [reflexivity|]); right; left; rewrite ?Hmode; reflexivity.
  all: destruct (JsString.truthyOpt tok) eqn:Htok.
  2, 4: rewrite (onSubmit_no_token _ Hpass Hpost Htok); cbn [fst snd log withLog withAuthLoading];
    (split; [reflexivity|]); unfold AuthFlow.posted;
    eexists; (split; [reflexivity|]); right; left; rewrite ?Hmode; reflexivity.
  all: destruct tok as [tok|]; [simpl in Htok | discriminate].
  all: destruct (meReply (host w) (AuthFlow.asked data tok w)) as [u|err] eqn:Hme.
  2, 4: rewrite (onSubmit_me_rejected _ Hpass Hpost Htok Hme); cbn [fst snd log withLog withAuthLoading];
    (split; [reflexivity|]); unfold AuthFlow.asked, AuthFlow.posted;
    rewrite <- !app_assoc;
    eexists; (split; [reflexivity|]); right; right; exists tok; rewrite ?Hmode;
    reflexivity.
  all: rewrite (onSubmit_me_fulfilled _ Hpass Hpost Htok Hme).
  all: destruct (handleLogin_quiet tok u (AuthFlow.beforeLogin data tok w))
      as (w1 & rest & -> & Hlog & Hquiet).
  all: cbn [fst snd log withLog withAuthLoading]; rewrite Hlog;
    cbn [log withLog withAuthLoading AuthFlow.beforeLogin]; (split; [reflexivity|]).
  all: unfold AuthFlow.beforeLogin, AuthFlow.asked, AuthFlow.posted;
    cbn [log withLog withAuthLoading]; rewrite <- !app_assoc.
  all: eexists; (split; [reflexivity|]); right; right; exists tok.
  all: rewrite !requests_app, Hquiet, ?Hmode; reflexivity.
Qed.

(** X20. A rejected login or registration shows the server's detail
    (the generic message when there is none), asks for no profile and
    leaves the session and the storage as they were; loading ends
    false. *)
Theorem rejected_login_reports
    (data : gmap string string) (w : World) (err : Api.Error) :
  AuthFlow.passes data w ->
  authReply (host w) (AuthFlow.posted data w) = Api.Rejected err ->
  log (exec (AuthScreen.onSubmit Index.handleLogin data) w) =
  AuthFlow.posted data w ++
  [EConsoleError "Auth error:" err;
   EAlert "Error"
     (if JsValue.truthy (Api.detail err) then Api.detail err
      else VStr "An error occurred. Please try again.")] /\
  isAuthenticated (exec (AuthScreen.onSubmit Index.handleLogin data) w)
  = isAuthenticated w /\
  user (exec (AuthScreen.onSubmit Index.handleLogin data) w) = user w /\
  storage (exec (AuthScreen.onSubmit Index.handleLogin data) w) = storage w /\
  authLoading (exec (AuthScreen.onSubmit Index.handleLogin data) w) = false.
Proof.
  intros Hpass Hpost. unfold exec.
  rewrite (onSubmit_post_rejected _ Hpass Hpost). cbn. auto.
Qed.

Lemma rejected_login_reports_witness :
  log (exec (AuthScreen.onSubmit Index.handleLogin Sample.credentials)
         (Sample.coldStart Sample.hostAuthDown)) =
  AuthFlow.posted Sample.credentials (Sample.coldStart Sample.hostAuthDown) ++
  [EConsoleError "Auth error:"
     (Api.AxiosError (Some (VObj {[ "detail" := VStr "Incorrect email or password" ]})));
   EAlert "Error"
     (if JsValue.truthy
           (Api.detail
              (Api.AxiosError
                 (Some (VObj {[ "detail" := VStr "Incorrect email or password" ]}))))
      then Api.detail
             (Api.AxiosError
                (Some (VObj {[ "detail" := VStr "Incorrect email or password" ]})))
      else VStr "An error occurred. Please try again.")].
Proof.
  assert (Hpass : AuthFlow.passes Sample.credentials (Sample.coldStart Sample.hostAuthDown))
    by (left; reflexivity).
  destruct (rejected_login_reports Sample.credentials
              (Sample.coldStart Sample.hostAuthDown)
              (Api.AxiosError (Some (VObj {[ "detail" := VStr "Incorrect email or password" ]})))
              Hpass eq_refl)
    as (Hlog & _).
  exact Hlog.
Defined.

Example rejected_login_message :
  List.last (log (exec (AuthScreen.onSubmit Index.handleLogin Sample.credentials)
                    (Sample.coldStart Sample.hostAuthDown))) EFormReset
  = EAlert "Error" (VStr "Incorrect email or password").
Proof. vm_compute. reflexivity. Qed.

(** X21. In login mode the request body has the two keys email and
    password and no other: whatever else the form record holds
    (a confirmation left from registration, names, office fields) is
    not sent. *)
Theorem login_body_keys (p : Portal) (data : gmap string string) (k : string) :
  is_Some (AuthScreen.requestData true p data !! k) <->
  k = "email" \/ k = "password".
Proof.
  unfold AuthScreen.requestData.
  rewrite !lookup_insert. repeat case_decide; subst.
  - split; [auto | eauto].
  - split; [auto | eauto].
  - rewrite lookup_empty. split; [intros [x Hx]; discriminate | intros [|]; congruence].
Qed.

Lemma login_body_keys_witness :
  ~ is_Some (AuthScreen.requestData true professional
               (Sample.registration "abc123" "abc123") !! "confirmPassword").
Proof.
  intros Hsent.
  apply (proj1 (login_body_keys professional (Sample.registration "abc123" "abc123")
                  "confirmPassword")) in Hsent.
  destruct Hsent as [H | H]; discriminate H.
Defined.

(** X22. In register mode the role sent is the active portal, whatever
    the form record holds under role, and experience_years is a number
    or undefined, never the text of the field. *)
Theorem register_body_role (p : Portal) (data : gmap string string) :
  AuthScreen.requestData false p data !! "role" = Some (VStr (portalName p)) /\
  (exists v,
     AuthScreen.requestData false p data !! "experience_years" = Some v /\
     match v with
     | VNum _ | VUndefined => True
     | _ => False
     end).
Proof.
  unfold AuthScreen.requestData. split.
  - rewrite lookup_insert_ne by discriminate. apply lookup_insert_eq.
  - eexists. split; [apply lookup_insert_eq|].
    unfold AuthScreen.experienceYears.
    destruct (data !! "experience_years") as [s|]; [|exact I].
    destruct (JsString.truthy s); exact I.
Qed.

Example register_overrides_role :
  AuthScreen.requestData false client
    (<["role" := "admin"]> (Sample.registration "abc123" "abc123")) !! "role"
  = Some (VStr "client").
Proof. vm_compute. reflexivity. Qed.

(** ** JobPostingScreen: outcomes of a submission *)

Lemma posting_settled user data w jd ed :
  storageFault (host w) (log w ++ [EGetItem "access_token"]) = false ->
  PostingFlow.iso w (data !! "job_date") = Some jd ->
  PostingFlow.endDate w data = Some ed ->
  JobPostingScreen.onSubmit user data w =
  (Ret tt,
   withPostingLoading false
     (withLog
        (PostingFlow.posted user data jd ed w ++
         match writeReply (host w) (PostingFlow.posted user data jd ed w) with
         | Api.Fulfilled _ =>
             [EAlert "Success" (VStr "Job posted successfully!"); EFormReset]
         | Api.Rejected err =>
             [EConsoleError "Error posting job:" err;
              EAlert "Error"
                (JsValue.orElse (Api.detail err)
                   (VStr "Failed to post job. Please try again."))]
         end) w)).
Proof.
  intros Hdisk Hjd Hed. unfold PostingFlow.endDate, PostingFlow.iso in *.
  unfold PostingFlow.posted, JobPostingScreen.onSubmit,
    JobPostingScreen.utcMidnight, JobPostingScreen.setLoading.
  run. rewrite Hdisk. run. rewrite Hjd. clear Hjd. run.
  destruct (ReactHookForm.truthy (data !! "recurring_end_date")); run.
  - destruct (Date_toISOString (host w) _) as [iso|]; [|discriminate].
    simpl in Hed. injection Hed as <-. run.
    rewrite <- !app_assoc. cbn [app].
    destruct (writeReply (host w) _); run; rewrite <- !app_assoc; reflexivity.
  - injection Hed as <-. rewrite <- !app_assoc. cbn [app].
    destruct (writeReply (host w) _); run; rewrite <- !app_assoc; reflexivity.
Qed.

(** X23. A posted job that the server accepts ends with the success
    alert and the reset of the form, in that order, with loading false
    and nothing else changed. *)
Theorem accepted_job_resets_form
    (user : JobPostingScreen.User) (data : gmap string ReactHookForm.FieldValue)
    (w : World) (jd : string) (ed : value) :
  storageFault (host w) (log w ++ [EGetItem "access_token"]) = false ->
  PostingFlow.iso w (data !! "job_date") = Some jd ->
  PostingFlow.endDate w data = Some ed ->
  writeReply (host w) (PostingFlow.posted user data jd ed w) = Api.Fulfilled tt ->
  JobPostingScreen.onSubmit user data w =
  (Ret tt,
   withPostingLoading false
     (withLog
        (PostingFlow.posted user data jd ed w ++
         [EAlert "Success" (VStr "Job posted successfully!"); EFormReset]) w)).
Proof.
  intros Hdisk Hjd Hed Hpost.
  rewrite (posting_settled user data w jd ed Hdisk Hjd Hed), Hpost. reflexivity.
Qed.

Lemma accepted_job_resets_form_witness :
  JobPostingScreen.onSubmit Sample.office (Sample.draft "35")
    (Sample.browsing Sample.host) =
  (Ret tt,
   withPostingLoading false
     (withLog
        (PostingFlow.posted Sample.office (Sample.draft "35")
           "2025-03-01T00:00:00.000Z" VUndefined (Sample.browsing Sample.host) ++
         [EAlert "Success" (VStr "Job posted successfully!"); EFormReset])
        (Sample.browsing Sample.host))).
Proof.
  exact (accepted_job_resets_form Sample.office (Sample.draft "35")
           (Sample.browsing Sample.host) "2025-03-01T00:00:00.000Z" VUndefined
           eq_refl eq_refl eq_refl eq_refl).
Defined.

(** X24. A posted job that the server rejects keeps the form: no reset
    is issued, the alert shows the server's detail (the generic text
    when there is none) and loading ends false. *)
Theorem rejected_job_keeps_form
    (user : JobPostingScreen.User) (data : gmap string ReactHookForm.FieldValue)
    (w : World) (jd : string) (ed : value) (err : Api.Error) :
  storageFault (host w) (log w ++ [EGetItem "access_token"]) = false ->
  PostingFlow.iso w (data !! "job_date") = Some jd ->
  PostingFlow.endDate w data = Some ed ->
  writeReply (host w) (PostingFlow.posted user data jd ed w) = Api.Rejected err ->
  JobPostingScreen.onSubmit user data w =
  (Ret tt,
   withPostingLoading false
     (withLog
        (PostingFlow.posted user data jd ed w ++
         [EConsoleError "Error posting job:" err;
          EAlert "Error"
            (if JsValue.truthy (Api.detail err) then Api.detail err
             else VStr "Failed to post job. Please try again.")]) w)).
Proof.
  intros Hdisk Hjd Hed Hpost.
  rewrite (posting_settled user data w jd ed Hdisk Hjd Hed), Hpost. reflexivity.
Qed.

Lemma rejected_job_keeps_form_witness :
  JobPostingScreen.onSubmit Sample.office (Sample.draft "35")
    (Sample.browsing Sample.hostWriteDown) =
  (Ret tt,
   withPostingLoading false
     (withLog
        (PostingFlow.posted Sample.office (Sample.draft "35")
           "2025-03-01T00:00:00.000Z" VUndefined (Sample.browsing Sample.hostWriteDown) ++
         [EConsoleError "Error posting job:"
            (Api.AxiosError (Some (VObj {[ "detail" := VStr "Already applied" ]})));
          EAlert "Error"
            (if JsValue.truthy
                  (Api.detail
                     (Api.AxiosError (Some (VObj {[ "detail" := VStr "Already applied" ]}))))
             then Api.detail
                    (Api.AxiosError (Some (VObj {[ "detail" := VStr "Already applied" ]})))
             else VStr "Failed to post job. Please try again.")])
        (Sample.browsing Sample.hostWriteDown))).
Proof.
  exact (rejected_job_keeps_form Sample.office (Sample.draft "35")
           (Sample.browsing Sample.hostWriteDown) "2025-03-01T00:00:00.000Z" VUndefined
           (Api.AxiosError (Some (VObj {[ "detail" := VStr "Already applied" ]})))
           eq_refl eq_refl eq_refl eq_refl).
Defined.

(** X25. A job date that the host cannot convert never reaches the
    network: the submission stops after reading the token, shows the
    generic failure text and ends with loading false. *)
Theorem invalid_date_is_not_posted
    (user : JobPostingScreen.User) (data : gmap string ReactHookForm.FieldValue)
    (w : World) :
  storageFault (host w) (log w ++ [EGetItem "access_token"]) = false ->
  PostingFlow.iso w (data !! "job_date") = None ->
  JobPostingScreen.onSubmit user data w =
  (Ret tt,
   withPostingLoading false
     (withLog
        (log w ++
         [EGetItem "access_token";
          EConsoleError "Error posting job:" (Api.HostError "RangeError");
          EAlert "Error" (VStr "Failed to post job. Please try again.")]) w)).
Proof.
  intros Hdisk Hjd. unfold PostingFlow.iso in Hjd.
  unfold JobPostingScreen.onSubmit, JobPostingScreen.utcMidnight,
    JobPostingScreen.setLoading.
  run. rewrite Hdisk. run. rewrite Hjd. run. rewrite <- !app_assoc. reflexivity.
Qed.

Lemma invalid_date_is_not_posted_witness :
  JobPostingScreen.onSubmit Sample.office (Sample.draft "35")
    (Sample.browsing Sample.hostOneJob) =
  (Ret tt,
   withPostingLoading false
     (withLog
        (log (Sample.browsing Sample.hostOneJob) ++
         [EGetItem "access_token";
          EConsoleError "Error posting job:" (Api.HostError "RangeError");
          EAlert "Error" (VStr "Failed to post job. Please try again.")])
        (Sample.browsing Sample.hostOneJob))).
Proof.
  exact (invalid_date_is_not_posted Sample.office (Sample.draft "35")
           (Sample.browsing Sample.hostOneJob) eq_refl eq_refl).
Defined.

(** ** JobsScreen: fetching the list *)

Lemma fetchJobs_settled (w : World) :
  storageFault (host w) (log w ++ [EGetItem "access_token"]) = false ->
  JobsScreen.fetchJobs w =
  match jobsReply (host w) (JobsFlow.asked w) with
  | Api.Fulfilled data =>
      (Ret tt, withJobsLoading false (withJobs data (withLog (JobsFlow.asked w) w)))
  | Api.Rejected err =>
      (Ret tt,
       withJobsLoading false
         (withLog (JobsFlow.asked w ++
                   [EConsoleError "Error fetching jobs:" err;
                    EAlert "Error" JobsFlow.failed]) w))
  end.
Proof.
  intros Hdisk. unfold JobsFlow.asked, JobsFlow.failed, JobsScreen.fetchJobs,
    JobsScreen.setJobs, JobsScreen.setLoading.
  run. rewrite Hdisk. run. rewrite <- !app_assoc. cbn [app].
  destruct (jobsReply (host w) _); run; rewrite <- ?app_assoc; reflexivity.
Qed.

Lemma fetchJobs_returns (w : World) : fst (JobsScreen.fetchJobs w) = Ret tt.
Proof.
  unfold JobsScreen.fetchJobs, JobsScreen.setJobs, JobsScreen.setLoading. run.
  destruct (storageFault (host w) (log w ++ [EGetItem "access_token"])); run;
    [reflexivity|].
  destruct (jobsReply (host w) _); run; reflexivity.
Qed.

(** X27. [fetchJobs] replaces the list wholesale by what the backend
    lists, without an alert; when the request fails the list is left as
    it was and one alert is shown. In both cases loading ends false. *)
Theorem fetchJobs_last_fetch_wins (w : World) :
  storageFault (host w) (log w ++ [EGetItem "access_token"]) = false ->
  (forall data,
     jobsReply (host w) (JobsFlow.asked w) = Api.Fulfilled data ->
     jobs (exec JobsScreen.fetchJobs w) = data /\
     log (exec JobsScreen.fetchJobs w) = JobsFlow.asked w /\
     jobsLoading (exec JobsScreen.fetchJobs w) = false) /\
  (forall err,
     jobsReply (host w) (JobsFlow.asked w) = Api.Rejected err ->
     jobs (exec JobsScreen.fetchJobs w) = jobs w /\
     log (exec JobsScreen.fetchJobs w) =
     JobsFlow.asked w ++
     [EConsoleError "Error fetching jobs:" err; EAlert "Error" JobsFlow.failed] /\
     jobsLoading (exec JobsScreen.fetchJobs w) = false).
Proof.
  intros Hdisk. unfold exec. rewrite (fetchJobs_settled w Hdisk).
  split; intros x Hreply; rewrite Hreply; cbn; auto.
Qed.

Lemma fetchJobs_last_fetch_wins_witness :
  jobs (exec JobsScreen.fetchJobs (Sample.browsing Sample.hostOneJob))
  = [Sample.frontDeskPM] /\
  jobs (exec JobsScreen.fetchJobs (Sample.browsing Sample.hostJobsDown))
  = jobs (Sample.browsing Sample.hostJobsDown).
Proof.
  destruct (fetchJobs_last_fetch_wins (Sample.browsing Sample.hostOneJob) eq_refl)
    as [Hok _].
  destruct (fetchJobs_last_fetch_wins (Sample.browsing Sample.hostJobsDown) eq_refl)
    as [_ Hdown].
  destruct (Hok [Sample.frontDeskPM] eq_refl) as (Hjobs & _ & _).
  destruct (Hdown (Api.AxiosError None) eq_refl) as (Hkept & _ & _).
  split; [exact Hjobs | exact Hkept].
Defined.

(** X28. Without a stored token [fetchJobs] does not stop: the request
    is sent all the same, with the header "Bearer null". *)
Theorem fetchJobs_without_token (w : World) :
  storageFault (host w) (log w ++ [EGetItem "access_token"]) = false ->
  storage w !! "access_token" = None ->
  exists rest,
    log (exec JobsScreen.fetchJobs w) =
    log w ++
    [EGetItem "access_token";
     EGet (EXPO_PUBLIC_BACKEND_URL (host w) +:+ "/api/jobs")
       {[ "Authorization" := VStr "Bearer null" ]}] ++ rest.
Proof.
  intros Hdisk Htoken. unfold exec. rewrite (fetchJobs_settled w Hdisk).
  unfold JobsFlow.asked. rewrite Htoken.
  destruct (jobsReply (host w) _); cbn [snd log withLog withJobs withJobsLoading].
  - exists []. rewrite app_nil_r. reflexivity.
  - eexists. rewrite <- app_assoc. reflexivity.
Qed.

Lemma fetchJobs_without_token_witness :
  exists rest,
    log (exec JobsScreen.fetchJobs (Sample.coldStart Sample.host)) =
    log (Sample.coldStart Sample.host) ++
    [EGetItem "access_token";
     EGet (EXPO_PUBLIC_BACKEND_URL (host (Sample.coldStart Sample.host)) +:+ "/api/jobs")
       {[ "Authorization" := VStr "Bearer null" ]}] ++ rest.
Proof.
  exact (fetchJobs_without_token (Sample.coldStart Sample.host) eq_refl eq_refl).
Defined.

(** X29. A successful application is followed by exactly one
    [fetchJobs]: the jobs state afterwards is what that fetch leaves,
    never a local increment of applications_count. *)
Theorem applyToJob_then_fetches (jobId : string) (w : World) :
  storageFault (host w) (log w ++ [EGetItem "access_token"]) = false ->
  writeReply (host w) (ApplyFlow.posted jobId w) = Api.Fulfilled tt ->
  JobsScreen.applyToJob jobId w = JobsScreen.fetchJobs (JobsFlow.applied jobId w).
Proof.
  intros Hdisk Hpost. unfold JobsFlow.applied, ApplyFlow.posted in *.
  unfold JobsScreen.applyToJob at 1. run. rewrite Hdisk. run.
  rewrite <- !app_assoc. cbn [app]. rewrite Hpost. run.
  rewrite <- !app_assoc. cbn [app].
  match goal with
  | |- (let (_, _) := JobsScreen.fetchJobs ?w0 in _) = JobsScreen.fetchJobs ?w1 =>
      change w0 with w1;
      pose proof (fetchJobs_returns w1) as Hret;
      destruct (JobsScreen.fetchJobs w1) as [[[]|err] w2]
  end; [reflexivity | discriminate Hret].
Qed.

Lemma applyToJob_then_fetches_witness :
  JobsScreen.applyToJob "j2" (Sample.browsing Sample.hostOneJob) =
  JobsScreen.fetchJobs (JobsFlow.applied "j2" (Sample.browsing Sample.hostOneJob)).
Proof.
  exact (applyToJob_then_fetches "j2" (Sample.browsing Sample.hostOneJob)
           eq_refl eq_refl).
Defined.

Example applyToJob_refetch_failed :
  jobs (exec (JobsScreen.applyToJob "j1") (Sample.browsing Sample.hostJobsDown))
  = [Sample.hygienistAM; Sample.frontDeskPM].
Proof. vm_compute. reflexivity. Qed.

(** ** ApplicationsScreen: fetching the applications *)

(** X30. [fetchApplications] always completes, whatever the device and
    the backend do, and ends with loading false. When the token cannot
    be read no request is sent and the list is kept; otherwise exactly
    one GET is sent, to my-applications for the role "professional" and
    to received for every other role, and the list becomes the payload
    when the request succeeds and is kept when it fails. *)
Theorem fetchApplications_by_role
    (reply : list Event -> Api.NetResult (list ApplicationsScreen.Application))
    (role : string) (st : ApplicationsScreen.State) (w : World) :
  (ApplicationsScreen.endpoint role = "/api/applications/my-applications" <->
   role = "professional") /\
  exists st' new,
    ApplicationsScreen.fetchApplications reply role st w =
    (Ret st', withLog (log w ++ new) w) /\
    ApplicationsScreen.loading st' = false /\
    if storageFault (host w) (log w ++ [EGetItem "access_token"])
    then
      requests new = [] /\
      ApplicationsScreen.applications st' = ApplicationsScreen.applications st
    else
      requests new =
      [EGet (EXPO_PUBLIC_BACKEND_URL (host w) +:+ ApplicationsScreen.endpoint role)
         (bearer (JsString.interpolate (storage w !! "access_token")))] /\
      ApplicationsScreen.applications st' =
      match reply (ApplicationsFlow.asked role w) with
      | Api.Fulfilled data => data
      | Api.Rejected _ => ApplicationsScreen.applications st
      end.
Proof.
  split.
  - unfold ApplicationsScreen.endpoint.
    destruct (String.eqb_spec role "professional") as [-> | Hne].
    + split; reflexivity.
    + split; [discriminate | intros Hrole; destruct (Hne Hrole)].
  - unfold ApplicationsFlow.asked, ApplicationsScreen.fetchApplications,
      ApplicationsScreen.setApplications, ApplicationsScreen.setLoading.
    run.
    destruct (storageFault (host w) (log w ++ [EGetItem "access_token"])); run.
    + eexists _, _. rewrite <- !app_assoc. cbn [app].
      split; [reflexivity|]. split; [reflexivity|]. split; reflexivity.
    + rewrite <- !app_assoc. cbn [app].
      destruct (reply _); run; eexists _, _; rewrite <- ?app_assoc; cbn [app];
        (split; [reflexivity|]); (split; [reflexivity|]); split; reflexivity.
Qed.

Lemma fetchApplications_by_role_witness :
  exists st' new,
    ApplicationsScreen.fetchApplications
      (fun _ => Api.Fulfilled [Sample.anApplication]) "client"
      (ApplicationsScreen.mkState [] true) (Sample.browsing Sample.host) =
    (Ret st', withLog (log (Sample.browsing Sample.host) ++ new)
                (Sample.browsing Sample.host)) /\
    ApplicationsScreen.loading st' = false /\
    requests new =
    [EGet "https://api.example/api/applications/received" (bearer "t0k3n")] /\
    ApplicationsScreen.applications st' = [Sample.anApplication].
Proof.
  destruct (fetchApplications_by_role (fun _ => Api.Fulfilled [Sample.anApplication])
              "client" (ApplicationsScreen.mkState [] true)
              (Sample.browsing Sample.host))
    as (_ & st' & new & Hrun & Hloading & Hreq & Hlist).
  exists st', new. split; [exact Hrun|]. split; [exact Hloading|].
  split; [exact Hreq | exact Hlist].
Defined.

Example fetchApplications_client :
  fst (ApplicationsScreen.fetchApplications
         (fun _ => Api.Fulfilled [Sample.anApplication]) "client"
         (ApplicationsScreen.mkState [] true) (Sample.browsing Sample.host))
  = Ret (ApplicationsScreen.mkState [Sample.anApplication] false) /\
  requests (log (exec (ApplicationsScreen.fetchApplications
                         (fun _ => Api.Fulfilled [Sample.anApplication]) "client"
                         (ApplicationsScreen.mkState [] true))
                   (Sample.browsing Sample.host)))
  = [EGet "https://api.example/api/applications/received" (bearer "t0k3n")].
Proof. vm_compute. auto. Qed.
